(** * OTP login test-suite: a shallow embedding of the Python sources

    Embedded files:
    - [utils/google_utils.py]   (module [GoogleUtils])
    - [pages/base_page.py]      (module [BasePage])
    - [pages/dashbaord_page.py] (module [DashboardPage])
    - [conftest.py]             (module [Conftest])

    Python values are modelled as the code uses them: a [str] holding decoded
    text is a list of Unicode code points, a JSON string is a [string], a call
    that may raise returns a [result].  Console output ([print]) is not part
    of the model: a caller observes only the returned value or the raised
    exception. *)

From Stdlib Require Import List String Ascii NArith ZArith QArith Bool Lia.
Import ListNotations.

Set Implicit Arguments.

(** ** Python results and exceptions *)

Module Py.

(** The exception classes that the embedded code raises, catches or lets
    through. *)
Inductive exn : Type :=
| KeyError
| ValueError            (* also binascii.Error, UnicodeDecodeError, JSONDecodeError *)
| TypeError
| AttributeError
| FileNotFoundError
| OSError
| RuntimeError (msg : string)
| PlaywrightTimeout     (* playwright TimeoutError *)
| PlaywrightError
| HttpError             (* googleapiclient.errors.HttpError *)
| RefreshError          (* google.auth.exceptions.RefreshError *)
| PytestFailed (msg : string)   (* pytest.fail: derives from BaseException *)
| KeyboardInterrupt.

(** [except Exception] catches everything but the two classes that derive
    from [BaseException] directly. *)
Definition is_Exception (e : exn) : bool :=
  match e with
  | PytestFailed _ | KeyboardInterrupt => false
  | _ => true
  end.

Inductive result (A : Type) : Type :=
| Ok (a : A)
| Raise (e : exn).
Arguments Ok {A} a.
Arguments Raise {A} e.

Definition bind {A B} (r : result A) (k : A -> result B) : result B :=
  match r with
  | Ok a => k a
  | Raise e => Raise e
  end.

(** Decoded text: a Python [str] as its code points. *)
Definition text := list N.

Definition text_of_string (s : string) : text :=
  map N_of_ascii (list_ascii_of_string s).

(** Truthiness of a [str]. *)
Definition truthy (t : text) : bool :=
  match t with [] => false | _ :: _ => true end.

(** The functions of the Python runtime that the code calls and that are
    not part of the repository: the Unicode database behind [re]'s
    character classes (consulted for code points from 128 on),
    [base64.urlsafe_b64decode(..).decode('utf-8')] and [time.sleep], which
    rejects some lengths. *)
Class Runtime : Type := {
  unicode_decimal : N -> bool;   (* str.isdecimal, category Nd *)
  unicode_alnum : N -> bool;     (* str.isalnum *)
  urlsafe_b64decode_utf8 : string -> result text;
  time_sleep : Q -> result unit
}.

End Py.
Import Py.

Notation "x <- c ;; k" := (Py.bind c (fun x => k))
  (at level 61, c at next level, right associativity).

(** ** utils/google_utils.py *)

Module GoogleUtils.

(** A Gmail [MessagePart] dictionary.  [body = None]: no ['body'] key;
    [body = Some None]: a body without ['data'].  [parts = None]: no
    ['parts'] key; an empty list also stands for a null value, the code
    tests both by truthiness only. *)
#[local] Unset Elimination Schemes.
Inductive part : Type :=
  Part (mimeType : option string)
       (headers : option (list (string * string)))
       (body : option (option string))
       (parts : option (list part)).
#[local] Set Elimination Schemes.

Definition mimeType (p : part) := let (m, _, _, _) := p in m.
Definition headers (p : part) := let (_, h, _, _) := p in h.
Definition body (p : part) := let (_, _, b, _) := p in b.
Definition parts (p : part) := let (_, _, _, ps) := p in ps.

(** The message dictionary returned by [messages().get]. *)
Record message : Type := Message {
  payload : option part;
  snippet : option string
}.

(** [{}] as a payload. *)
Definition empty_part : part := Part None None None None.

(** [part.get('mimeType') == 'text/plain'] *)
Definition is_text_plain (m : option string) : bool :=
  match m with
  | Some s => String.eqb s "text/plain"
  | None => false
  end.

(** ['data' in payload.get('body', {})] together with the value. *)
Definition body_data (b : option (option string)) : option string :=
  match b with
  | Some (Some d) => Some d
  | _ => None
  end.

Section Extraction.
Context {R : Runtime}.

(** The [for part in parts] loop of [extract_text_from_message]; [self]
    is the function itself, called on [{'payload': part}]. *)
Definition scan_parts (self : part -> result text) : list part -> result text :=
  fix loop (l : list part) : result text :=
    match l with
    | [] => Ok []
    | p :: rest =>
        let nested :=
          match parts p with
          | Some _ =>
              r <- self p ;;
              if truthy r then Ok r else loop rest
          | None => loop rest
          end in
        if is_text_plain (mimeType p) then
          match body p with
          | None => Raise KeyError
          | Some (Some d) => urlsafe_b64decode_utf8 d
          | Some None => nested
          end
        else nested
    end.

(** [extract_text_from_message] seen from its payload. *)
Fixpoint extract_text_from_payload (pl : part) : result text :=
  match pl with
  | Part _ _ b ps =>
      match ps with
      | Some (p :: rest) =>
          scan_parts extract_text_from_payload (p :: rest)
      | _ =>
          match body_data b with
          | Some d => urlsafe_b64decode_utf8 d
          | None => Ok []
          end
      end
  end.

Definition extract_text_from_message (msg : message) : result text :=
  extract_text_from_payload
    (match payload msg with Some pl => pl | None => empty_part end).

(** *** The pattern [\b(\d{6})\b] *)

Definition ascii_digit (c : N) : bool := ((48 <=? c) && (c <=? 57))%N.
Definition ascii_letter (c : N) : bool :=
  (((65 <=? c) && (c <=? 90)) || ((97 <=? c) && (c <=? 122)))%N.

(** [\d] on a [str] pattern. *)
Definition is_digit (c : N) : bool :=
  if (c <? 128)%N then ascii_digit c else unicode_decimal c.

(** [\w] on a [str] pattern: alphanumeric or underscore. *)
Definition is_word (c : N) : bool :=
  (c =? 95)%N || is_digit c ||
  (if (c <? 128)%N then ascii_letter c else unicode_alnum c).

Definition word_opt (c : option N) : bool :=
  match c with Some x => is_word x | None => false end.

(** [\b] between the characters [prev] and [next] ([None] outside the
    string). *)
Definition at_boundary (prev next : option N) : bool :=
  xorb (word_opt prev) (word_opt next).

(** An attempt to match the pattern with its first character at the head
    of [s], [prev] being the character before. *)
Definition match_otp_at (prev : option N) (s : text) : option text :=
  let code := firstn 6 s in
  let rest := skipn 6 s in
  if at_boundary prev (hd_error s)
     && (List.length code =? 6)%nat
     && forallb is_digit code
     && at_boundary (hd_error (rev code)) (hd_error rest)
  then Some code else None.

(** [re.search]: the match at the leftmost position. *)
Fixpoint search_otp (prev : option N) (s : text) : option text :=
  match match_otp_at prev s with
  | Some code => Some code
  | None =>
      match s with
      | [] => None
      | c :: s' => search_otp (Some c) s'
      end
  end.

Definition extract_otp (msg : message) : result (option text) :=
  email_text <- extract_text_from_message msg ;;
  Ok (search_otp None email_text).

End Extraction.

(** *** The mailbox *)

(** What the code reads of a [Credentials] object. *)
Record credentials : Type := Credentials {
  valid : bool;
  expired : bool;
  refresh_token : option string
}.

(** The credential files and the mail service, as the calls of
    [get_gmail_service] and [get_latest_email] meet them. *)
Record gmail : Type := Gmail {
  token_file_exists : bool;                      (* os.path.exists(TOKEN_FILE) *)
  from_authorized_user_file : result credentials;
  refresh : credentials -> result credentials;   (* creds.refresh(Request()) *)
  from_client_secrets_file : result unit;        (* FileNotFoundError when missing *)
  run_local_server : result credentials;
  write_token : credentials -> result unit;      (* open(TOKEN_FILE, 'w'), write *)
  build : credentials -> result unit;
  messages_list : string -> result (list string);  (* ids of the 'messages' list *)
  messages_get : string -> result message
}.

Definition token_truthy (t : option string) : bool :=
  match t with
  | Some s => negb (String.eqb s EmptyString)
  | None => false
  end.

Section Mailbox.
Context {R : Runtime}.
Variable g : gmail.

Definition interactive_login : result credentials :=
  _ <- from_client_secrets_file g ;;
  run_local_server g.

Definition get_gmail_service : result unit :=
  creds <- (if token_file_exists g
            then (c <- from_authorized_user_file g ;; Ok (Some c))
            else Ok None) ;;
  creds <- match creds with
           | Some c =>
               if valid c then Ok c
               else
                 c' <- (if expired c && token_truthy (refresh_token c)
                        then refresh g c
                        else interactive_login) ;;
                 _ <- write_token g c' ;;
                 Ok c'
           | None =>
               c' <- interactive_login ;;
               _ <- write_token g c' ;;
               Ok c'
           end ;;
  build g creds.

Definition get_latest_email (query : string) : result (option text) :=
  match get_gmail_service with
  | Raise FileNotFoundError => Ok None
  | Raise e => if is_Exception e then Ok None else Raise e
  | Ok service =>
      messages <- messages_list g query ;;
      match messages with
      | [] => Ok None
      | msg_id :: _ =>
          msg <- messages_get g msg_id ;;
          (* headers = msg['payload']['headers'] *)
          _ <- match payload msg with
               | Some pl =>
                   match headers pl with
                   | Some h => Ok h
                   | None => Raise KeyError
                   end
               | None => Raise KeyError
               end ;;
          extract_otp msg
      end
  end.

End Mailbox.

End GoogleUtils.

(** ** The browser seen from the test code *)

Module Browser.

Inductive browser_name : Type := chromium | firefox | webkit.

(** The Playwright calls of the page objects and fixtures (and
    [time.sleep], which the trace records too). *)
Inductive action : Type :=
| Launch (name : browser_name)
| NewContext (storage_state : option string)
| NewPage
| AddInitScript
| Goto (url : string)
| PageReload
| StorageState (path : string)
| ContextClose
| WaitForSelector (selector : string) (state : option string) (timeout : Z)
| LocatorWaitFor (selector : string) (state : string) (timeout : Z)
| LocatorClick (selector : string) (timeout : Z) (force : bool)
| PageFill (selector : string) (value : text)
| Sleep (seconds : Q).

(** A call and the exception it raised, if any. *)
Definition event : Type := (action * option exn)%type.

(** The content of the auth file: a storage state that Playwright can
    decode (its cookies, opaque here), or anything else. *)
Inductive file_content : Type :=
| Decodable (cookies : list string)
| Undecodable.

(** The browser and the site: whether a call raises, given what happened
    before, and what an export of the storage state leaves in the file
    ([None]: nothing is written). *)
Record env : Type := Env {
  outcome : list event -> action -> option exn;
  exported : list event -> option file_content
}.

(** The state the code runs in: the calls made so far, oldest first, and
    the auth file [results/auth.json]. *)
Record world : Type := World {
  trace : list event;
  auth_file : option file_content
}.

Definition M (A : Type) : Type := world -> result A * world.

Definition ret {A} (a : A) : M A := fun w => (Ok a, w).
Definition raise {A} (e : exn) : M A := fun w => (Raise e, w).
Definition bindM {A B} (m : M A) (k : A -> M B) : M B :=
  fun w =>
    match m w with
    | (Ok a, w') => k a w'
    | (Raise e, w') => (Raise e, w')
    end.
Definition lift {A} (r : result A) : M A := fun w => (r, w).

Definition of_outcome (o : option exn) : result unit :=
  match o with None => Ok tt | Some e => Raise e end.

Definition to_outcome (r : result unit) : option exn :=
  match r with Ok _ => None | Raise e => Some e end.

Definition log (a : action) (o : option exn) (w : world) : world :=
  World (trace w ++ [(a, o)]) (auth_file w).

Section Calls.
Context {R : Runtime}.
Variable E : env.

(** A Playwright call that touches no file. *)
Definition perform (a : action) : M unit :=
  fun w =>
    let o := outcome E (trace w) a in
    (of_outcome o, log a o w).

(** [time.sleep(seconds)] *)
Definition sleep (seconds : Q) : M unit :=
  fun w =>
    let r := time_sleep seconds in
    (r, log (Sleep seconds) (to_outcome r) w).

End Calls.

End Browser.
Import Browser.

Notation "x <-- c ;;; k" := (Browser.bindM c (fun x => k))
  (at level 61, c at next level, right associativity).

(** ** app_selectors/login_selectors.py *)

Module Selectors.
(** The double quote inside a selector. *)
Definition dq : string := String (ascii_of_nat 34) EmptyString.

Definition EMAIL_INPUT : string := "input[name='email']".
Definition CONTINUE_BUTTON : string := "button[name='commit']".
Definition OTP_INPUT : string :=
  "input[placeholder=" ++ dq ++ "6-digit code" ++ dq ++ "]".
Definition SUBMIT_BUTTON : string :=
  "//span[contains(text()," ++ dq ++ "Submit" ++ dq ++ ")]/parent::button".
Definition DASHBOARD_HEADER : string :=
  "//h2[text()=" ++ dq ++ "Welcome back Salman!" ++ dq ++ "]".
End Selectors.

(** ** pages/base_page.py *)

Module BasePage.

(** [str.rstrip("/")] *)
Definition rstrip_slash (s : string) : string :=
  let fix drop (l : list ascii) : list ascii :=
    match l with
    | c :: l' => if Ascii.eqb c "/" then drop l' else l
    | [] => []
    end in
  string_of_list_ascii (rev (drop (rev (list_ascii_of_string s)))).

(** The fields of a [BasePage] that the embedded methods read; the page
    itself is the [Browser.env]. *)
Record t : Type := Make {
  base_url : option string;
  default_timeout : Z
}.

(** [BasePage(page, base_url, default_timeout)] *)
Definition init (base_url : option string) (default_timeout : Z) : t :=
  Make (match base_url with
        | Some u => if String.eqb u EmptyString then None else Some (rstrip_slash u)
        | None => None
        end)
       default_timeout.

(** [timeout or self.default_timeout] *)
Definition timeout_or (timeout : option Z) (default : Z) : Z :=
  match timeout with
  | Some v => if (v =? 0)%Z then default else v
  | None => default
  end.

Section Methods.
Context {R : Runtime}.
Variable E : env.
Variable self : t.

Definition Hitclick (selector : string) (timeout : option Z) (force : bool)
  : M unit :=
  let timeout := timeout_or timeout (default_timeout self) in
  _ <-- perform E (LocatorWaitFor selector "visible" timeout) ;;;
  perform E (LocatorClick selector timeout force).

(** One round of the [try] in [safe_click]: [None] when the click went
    through, the exception when [except Exception] caught one. *)
Definition click_attempt (selector : string) : M (option exn) :=
  fun w =>
    match Hitclick selector None false w with
    | (Ok _, w') => (Ok None, w')
    | (Raise e, w') =>
        if is_Exception e then (Ok (Some e), w') else (Raise e, w')
    end.

(** The [for _ in range(retries)] loop and the final [raise last_exc];
    raising [None] is a [TypeError]. *)
Fixpoint safe_click_loop (selector : string) (retry_delay : Q)
         (n : nat) (last_exc : option exn) : M unit :=
  match n with
  | O =>
      match last_exc with
      | Some e => raise e
      | None => raise TypeError
      end
  | S n' =>
      r <-- click_attempt selector ;;;
      match r with
      | None => ret tt
      | Some e =>
          _ <-- sleep retry_delay ;;;
          safe_click_loop selector retry_delay n' (Some e)
      end
  end.

Definition safe_click (selector : string) (retries : Z) (retry_delay : Q)
           (timeout : option Z) : M unit :=
  safe_click_loop selector retry_delay (Z.to_nat retries) None.

Definition type_text (selector : string) (txt : text) : M unit :=
  _ <-- perform E (WaitForSelector selector None 20000) ;;;
  perform E (PageFill selector txt).

End Methods.

End BasePage.

(** ** pages/dashbaord_page.py *)

Module DashboardPage.
Import Selectors.

Section Methods.
Context {R : Runtime}.
Variable E : env.
Variable g : GoogleUtils.gmail.
Variable self : BasePage.t.

(** [NavBarLinks(email, wait_for_dashboard=True)]; the flag is not read.
    [DashboardPage] defines no attribute [OTP_INPUT], so evaluating
    [self.OTP_INPUT] raises before the wait of the last step is called. *)
Definition NavBarLinks (email : text) (wait_for_dashboard : bool) : M unit :=
  _ <-- perform E (WaitForSelector EMAIL_INPUT None 30000) ;;;
  _ <-- BasePage.type_text E EMAIL_INPUT email ;;;
  _ <-- perform E (WaitForSelector CONTINUE_BUTTON (Some "attached"%string) 30000) ;;;
  _ <-- BasePage.safe_click E self CONTINUE_BUTTON 3 (1 # 4) (Some 30000%Z) ;;;
  _ <-- perform E (WaitForSelector OTP_INPUT None 120000) ;;;
  otp_code <-- lift (GoogleUtils.get_latest_email g "subject:code") ;;;
  otp_code <-- match otp_code with
               | Some c =>
                   if truthy c then ret c
                   else raise (PytestFailed "Unable to Get the OTP from Email")
               | None => raise (PytestFailed "Unable to Get the OTP from Email")
               end ;;;
  selector <-- raise (A := string) AttributeError ;;;
  _ <-- perform E (WaitForSelector selector None 30000) ;;;
  _ <-- BasePage.type_text E OTP_INPUT otp_code ;;;
  BasePage.safe_click E self SUBMIT_BUTTON 3 (1 # 4) (Some 30000%Z).

End Methods.

End DashboardPage.

(** ** conftest.py *)

Module Conftest.
Import Selectors.

Definition AUTH_STATE_FILE : string := "results/auth.json".

(** The value of [--browser]: a list when the option is declared with
    [action="append"], a name or [None] otherwise. *)
Inductive browser_option : Type :=
| OptList (names : list browser_name)
| OptName (name : option browser_name).

Record pytestconfig : Type := Config {
  opt_base_url : option string;      (* --base-url *)
  opt_recreate_auth : bool;          (* --recreate-auth *)
  opt_browser : browser_option       (* --browser *)
}.

(** [Path.exists()] and the reading of a file; the auth file is the only
    file of the model. *)
Definition read_file (w : world) (path : string) : option file_content :=
  if String.eqb path AUTH_STATE_FILE then auth_file w else None.

Definition exists_ (w : world) (path : string) : bool :=
  match read_file w path with Some _ => true | None => false end.

Section Fixtures.
Context {R : Runtime}.
Variable E : env.

(** [context.storage_state(path=...)]: the export may write the file
    and may raise. *)
Definition storage_state (path : string) : M unit :=
  fun w =>
    let o := outcome E (trace w) (StorageState path) in
    let f := match exported E (trace w) with
             | Some c => Some c
             | None => auth_file w
             end in
    (of_outcome o, World (trace w ++ [(StorageState path, o)]) f).

(** [browser.new_context(storage_state=path)]: Playwright reads and
    decodes the file before it creates the context. *)
Definition new_context_from (path : string) : M unit :=
  fun w =>
    let a := NewContext (Some path) in
    match read_file w path with
    | None => (Raise FileNotFoundError, log a (Some FileNotFoundError) w)
    | Some Undecodable => (Raise ValueError, log a (Some ValueError) w)
    | Some (Decodable _) => perform E a w
    end.

Definition create_auth_state (cfg : pytestconfig) : M string :=
  fun w =>
    let base_url :=
      match opt_base_url cfg with
      | Some u => if String.eqb u EmptyString then "https://dmfluxury.com"%string else u
      | None => "https://dmfluxury.com"%string
      end in
    let recreate := opt_recreate_auth cfg in
    let auth_path := AUTH_STATE_FILE in
    if exists_ w auth_path && negb recreate then (Ok auth_path, w)
    else
      let browser_name :=
        match opt_browser cfg with
        | OptList (b :: _) => b
        | OptList [] => chromium
        | OptName (Some b) => b
        | OptName None => chromium
        end in
      (_ <-- perform E (Launch browser_name) ;;;
       _ <-- perform E (NewContext None) ;;;
       _ <-- perform E NewPage ;;;
       _ <-- perform E AddInitScript ;;;
       _ <-- perform E (Goto "https://dmfluxury.com") ;;;
       _ <-- sleep 150 ;;;
       _ <-- storage_state auth_path ;;;
       _ <-- perform E ContextClose ;;;
       _ <-- (fun w' =>
                if exists_ w' auth_path then (Ok tt, w')
                else (Raise (RuntimeError "Failed to create auth storage state."), w')) ;;;
       ret auth_path) w.

(** The [base_url] fixture. *)
Definition base_url : string := "https://dmfluxury.com".

(** [auth_page] up to its [yield]; the bare [except] around the wait for
    the dashboard header catches everything. *)
Definition auth_page (create_auth_state : string) (base_url : string)
  : M BasePage.t :=
  _ <-- new_context_from create_auth_state ;;;
  _ <-- perform E NewPage ;;;
  _ <-- perform E (Goto (base_url ++ "/pages/configurators")) ;;;
  _ <-- (fun w =>
           match perform E (WaitForSelector DASHBOARD_HEADER None 60000) w with
           | (_, w') => (Ok tt, w')
           end) ;;;
  ret (BasePage.init (Some base_url) 60000).

(** A test that asks for [auth_page]: pytest resolves
    [create_auth_state] and [base_url], then runs the fixture. *)
Definition request_auth_page (cfg : pytestconfig) : M BasePage.t :=
  path <-- create_auth_state cfg ;;;
  auth_page path base_url.

End Fixtures.

End Conftest.

(** ** pages/base_page.py and pages/dashbaord_page.py: navigation and the
    generic retry *)

Module Navigation.

(** [str.lstrip("/")] *)
Fixpoint lstrip_slash (s : string) : string :=
  match s with
  | String c s' => if Ascii.eqb c "/" then lstrip_slash s' else s
  | EmptyString => EmptyString
  end.

(** Truthiness of a [str] held in a [string]. *)
Definition nonempty (s : string) : bool := negb (String.eqb s EmptyString).

Section Methods.
Context {R : Runtime}.
Variable E : env.
Variable self : BasePage.t.

(** [BasePage._build_url(path)] *)
Definition _build_url (path : string) : result string :=
  if String.prefix "http://" path || String.prefix "https://" path then Ok path
  else
    match BasePage.base_url self with
    | Some b =>
        if nonempty b
        then Ok (BasePage.rstrip_slash b ++ "/" ++ lstrip_slash path)%string
        else Raise ValueError
    | None => Raise ValueError
    end.

(** [BasePage.goto(path)]; the trace keeps the URL of a navigation, not
    its keyword arguments. *)
Definition goto (path : string) : M unit :=
  url <-- (if String.prefix "http" path then ret path
           else lift (_build_url path)) ;;;
  perform E (Goto url).

(** [DashboardPage.goto_dashboard()] *)
Definition goto_dashboard : M unit :=
  match BasePage.base_url self with
  | Some b =>
      if nonempty b then goto b else goto "https://dmfluxury.com"
  | None => goto "https://dmfluxury.com"
  end.

(** The loop of [BasePage.retry] and its final [raise last_exc]; [func]
    stands for the call of [func] on the arguments handed through. *)
Fixpoint retry_loop {A : Type} (func : M A) (delay : Q) (n : nat)
         (last_exc : option exn) : M A :=
  match n with
  | O =>
      match last_exc with
      | Some e => raise e
      | None => raise TypeError
      end
  | S n' =>
      fun w =>
        match func w with
        | (Ok a, w') => (Ok a, w')
        | (Raise e, w') =>
            if is_Exception e
            then (_ <-- sleep delay ;;; retry_loop func delay n' (Some e)) w'
            else (Raise e, w')
        end
  end.

(** [BasePage.retry(func, retries, delay, ...)] *)
Definition retry {A : Type} (func : M A) (retries : Z) (delay : Q) : M A :=
  retry_loop func delay (Z.to_nat retries) None.

End Methods.

End Navigation.

(** ** A runtime to evaluate examples

    [urlsafe_b64decode] follows CPython's non-strict [binascii.a2b_base64]
    after the translation of [-] and [_]; [decode('utf-8')] is strict.  The
    Unicode tables are left empty beyond ASCII, and [time.sleep] rejects a
    negative length.  The theorems below hold for every [Runtime]; this one
    serves to run the code on concrete messages. *)

Module Reference.

(** The value of a character of the base64 alphabet, both variants. *)
Definition b64_value (c : N) : option N :=
  if ((65 <=? c) && (c <=? 90))%N then Some (c - 65)%N
  else if ((97 <=? c) && (c <=? 122))%N then Some (c - 71)%N
  else if ((48 <=? c) && (c <=? 57))%N then Some (c + 4)%N
  else if ((c =? 43) || (c =? 45))%N then Some 62%N
  else if ((c =? 47) || (c =? 95))%N then Some 63%N
  else None.

(** The decoding loop: [quad_pos] characters of the current group read,
    [leftchar] the bits not yet written, [pads] the padding seen since the
    last data character, [out] the bytes written, newest first. *)
Fixpoint a2b_base64 (s : list N) (quad_pos : nat) (leftchar : N)
         (pads : nat) (out : list N) : result (list N) :=
  match s with
  | [] =>
      match quad_pos with
      | O => Ok (rev out)
      | _ => Raise ValueError
      end
  | c :: s' =>
      if (c =? 61)%N then
        if (2 <=? quad_pos)%nat then
          if (4 <=? quad_pos + S pads)%nat then Ok (rev out)
          else a2b_base64 s' quad_pos leftchar (S pads) out
        else a2b_base64 s' quad_pos leftchar pads out
      else
        match b64_value c with
        | None => a2b_base64 s' quad_pos leftchar pads out
        | Some v =>
            match quad_pos with
            | 0%nat => a2b_base64 s' 1 v 0 out
            | 1%nat =>
                a2b_base64 s' 2 (N.land v 15) 0
                  (N.lor (N.shiftl leftchar 2) (N.shiftr v 4) :: out)
            | 2%nat =>
                a2b_base64 s' 3 (N.land v 3) 0
                  (N.lor (N.shiftl leftchar 4) (N.shiftr v 2) :: out)
            | _ =>
                a2b_base64 s' 0 0 0
                  (N.lor (N.shiftl leftchar 6) v :: out)
            end
        end
  end.

Definition urlsafe_b64decode (data : string) : result (list N) :=
  let cs := map N_of_ascii (list_ascii_of_string data) in
  if forallb (fun c => (c <? 128)%N) cs then a2b_base64 cs 0 0 0 []
  else Raise ValueError.

Definition continuation (b : N) : bool := ((128 <=? b) && (b <=? 191))%N.
Definition low6 (b : N) : N := N.land b 63.

(** Strict UTF-8; [fuel] bounds the number of characters. *)
Fixpoint utf8_decode (fuel : nat) (bs : list N) : result text :=
  match fuel with
  | O => match bs with [] => Ok [] | _ => Raise ValueError end
  | S fuel' =>
      match bs with
      | [] => Ok []
      | b0 :: r0 =>
          if (b0 <? 128)%N then
            t <- utf8_decode fuel' r0 ;; Ok (b0 :: t)
          else if ((194 <=? b0) && (b0 <=? 223))%N then
            match r0 with
            | b1 :: r1 =>
                if continuation b1 then
                  t <- utf8_decode fuel' r1 ;;
                  Ok ((N.land b0 31 * 64 + low6 b1)%N :: t)
                else Raise ValueError
            | _ => Raise ValueError
            end
          else if ((224 <=? b0) && (b0 <=? 239))%N then
            match r0 with
            | b1 :: b2 :: r2 =>
                if continuation b1 && continuation b2
                   && (negb (b0 =? 224)%N || (160 <=? b1)%N)
                   && (negb (b0 =? 237)%N || (b1 <=? 159)%N) then
                  t <- utf8_decode fuel' r2 ;;
                  Ok ((N.land b0 15 * 4096 + low6 b1 * 64 + low6 b2)%N :: t)
                else Raise ValueError
            | _ => Raise ValueError
            end
          else if ((240 <=? b0) && (b0 <=? 244))%N then
            match r0 with
            | b1 :: b2 :: b3 :: r3 =>
                if continuation b1 && continuation b2 && continuation b3
                   && (negb (b0 =? 240)%N || (144 <=? b1)%N)
                   && (negb (b0 =? 244)%N || (b1 <=? 143)%N) then
                  t <- utf8_decode fuel' r3 ;;
                  Ok ((N.land b0 7 * 262144 + low6 b1 * 4096
                       + low6 b2 * 64 + low6 b3)%N :: t)
                else Raise ValueError
            | _ => Raise ValueError
            end
          else Raise ValueError
      end
  end.

Definition b64decode_utf8 (data : string) : result text :=
  bs <- urlsafe_b64decode data ;;
  utf8_decode (List.length bs) bs.

Definition sleep_length (seconds : Q) : result unit :=
  if Qle_bool 0 seconds then Ok tt else Raise ValueError.

#[export] Instance runtime : Runtime := {
  unicode_decimal := fun _ => false;
  unicode_alnum := fun _ => false;
  urlsafe_b64decode_utf8 := b64decode_utf8;
  time_sleep := sleep_length
}.

End Reference.

(** * The vocabulary of the properties, and inputs to run the code on *)

Import GoogleUtils.

(** ** Digits in a text *)

Section OtpVocabulary.
Context {R : Runtime}.

Definition digit_at (txt : text) (i : nat) : bool :=
  match nth_error txt i with Some c => is_digit c | None => false end.

Definition word_at (txt : text) (i : nat) : bool :=
  word_opt (nth_error txt i).

(** [code] is the six characters of [txt] from position [p] on, all
    digits, with no word character, hence no digit, next to them. *)
Definition six_digit_match (txt : text) (p : nat) (code : text) : Prop :=
  code = firstn 6 (skipn p txt)
  /\ List.length code = 6%nat
  /\ (forall i, p <= i < p + 6 -> digit_at txt i = true)%nat
  /\ (forall q, p = S q -> word_at txt q = false /\ digit_at txt q = false)
  /\ word_at txt (p + 6) = false
  /\ digit_at txt (p + 6) = false.

(** Positions [a .. a+n-1] of [txt] hold digits. *)
Definition digit_run (txt : text) (a n : nat) : Prop :=
  (forall i, a <= i < a + n -> digit_at txt i = true)%nat.

(** A digit run that no digit extends. *)
Definition maximal_digit_run (txt : text) (a n : nat) : Prop :=
  digit_run txt a n
  /\ (forall q, a = S q -> digit_at txt q = false)
  /\ digit_at txt (a + n) = false.

(** The character in front of position [p] when the search started with
    [prev] in front of the text. *)
Definition char_before (prev : option N) (s : text) (p : nat) : option N :=
  match p with
  | O => prev
  | S q => nth_error s q
  end.

End OtpVocabulary.

(** ** Messages *)

(** "Your code is 482913. Expires in 10 minutes." and
    "<p>Your code is 482913</p>" in the encoding of the mail service. *)
Definition plain_body : string :=
  "WW91ciBjb2RlIGlzIDQ4MjkxMy4gRXhwaXJlcyBpbiAxMCBtaW51dGVzLg==".
Definition html_body : string := "PHA-WW91ciBjb2RlIGlzIDQ4MjkxMzwvcD4=".

(** A message whose single plain-text body is the OTP mail. *)
Definition otp_mail : message :=
  Message
    (Some (Part (Some "text/plain"%string) (Some [])
                (Some (Some plain_body)) None))
    None.

(** The parts listed under a part. *)
Definition children (p : part) : list part :=
  match parts p with Some l => l | None => [] end.

(** The parts with MIME type [text/plain] in a tree, the root included, in
    document order. *)
Fixpoint plain_parts (p : part) : list part :=
  (if is_text_plain (mimeType p) then [p] else [])
  ++ match p with
     | Part _ _ _ (Some l) => flat_map plain_parts l
     | Part _ _ _ None => []
     end.

(** The [text/plain] parts strictly below a part. *)
Definition plain_below (p : part) : list part :=
  flat_map plain_parts (children p).

(** A part that has a ['parts'] key with nothing in it and still carries
    body data. *)
Definition bare_container (p : part) : bool :=
  match parts p, body_data (body p) with
  | Some [], Some _ => true
  | _, _ => false
  end.

(** No part of the tree is a [bare_container]. *)
Fixpoint no_bare_container (p : part) : bool :=
  negb (bare_container p)
  && match p with
     | Part _ _ _ (Some l) => forallb no_bare_container l
     | Part _ _ _ None => true
     end.

(** Induction on a part with the property known of its children. *)
Fixpoint part_children_ind (P : part -> Prop)
         (H : forall p, Forall P (children p) -> P p) (p : part) : P p :=
  H p
    (match p as p0 return Forall P (children p0) with
     | Part _ _ _ (Some l) =>
         (fix go (l : list part) : Forall P l :=
            match l with
            | [] => Forall_nil P
            | x :: r => Forall_cons x (part_children_ind H x) (go r)
            end) l
     | Part _ _ _ None => Forall_nil P
     end).

(** A mail whose only body is HTML. *)
Definition html_mail : message :=
  Message
    (Some (Part (Some "text/html"%string) (Some [])
                (Some (Some html_body)) None))
    None.

Section WalkVocabulary.
Context {R : Runtime}.

(** What the walk yields from a part that has a ['parts'] key. *)
Definition walk_ok (x : part) : Prop :=
  no_bare_container x = true ->
  (plain_below x = [] -> parts x <> None ->
   extract_text_from_payload x = Ok [])
  /\ (forall t d, plain_below x = [t] -> body t = Some (Some d) ->
                  extract_text_from_payload x = urlsafe_b64decode_utf8 d).

End WalkVocabulary.

(** The [text/plain] parts of a message, its payload included. *)
Definition message_plain_parts (msg : message) : list part :=
  match payload msg with Some pl => plain_parts pl | None => [] end.

(** A multipart mail: the plain text sits two levels down, next to an HTML
    alternative, and an attachment follows. *)
Definition nested_mail : message :=
  let plain := Part (Some "text/plain"%string) (Some [])
                    (Some (Some plain_body)) None in
  let html := Part (Some "text/html"%string) (Some [])
                   (Some (Some html_body)) None in
  let alternative := Part (Some "multipart/alternative"%string) (Some [])
                          (Some None) (Some [plain; html]) in
  let attachment := Part (Some "application/pdf"%string) (Some [])
                         (Some None) None in
  Message
    (Some (Part (Some "multipart/mixed"%string) (Some []) (Some None)
                (Some [alternative; attachment])))
    None.

(** The same mail with the plain alternative removed. *)
Definition html_only_multipart : message :=
  let html := Part (Some "text/html"%string) (Some [])
                   (Some (Some html_body)) None in
  let alternative := Part (Some "multipart/alternative"%string) (Some [])
                          (Some None) (Some [html]) in
  Message
    (Some (Part (Some "multipart/mixed"%string) (Some []) (Some None)
                (Some [alternative])))
    None.

(** A mail whose first part has an empty ['parts'] list and HTML data, the
    plain text being nested in the second part. *)
Definition bare_container_mail : message :=
  let plain := Part (Some "text/plain"%string) (Some [])
                    (Some (Some plain_body)) None in
  let bare := Part (Some "text/html"%string) (Some [])
                   (Some (Some html_body)) (Some []) in
  let alternative := Part (Some "multipart/alternative"%string) (Some [])
                          (Some None) (Some [plain]) in
  Message
    (Some (Part (Some "multipart/mixed"%string) (Some []) (Some None)
                (Some [bare; alternative])))
    None.

(** ** Mailboxes *)

(** No token file and no client secrets file: the interactive login cannot
    start. *)
Definition gmail_no_credentials : gmail :=
  Gmail false (Raise FileNotFoundError) (fun _ => Raise RefreshError)
        (Raise FileNotFoundError) (Raise FileNotFoundError)
        (fun _ => Ok tt) (fun _ => Ok tt)
        (fun _ => Ok []) (fun _ => Raise HttpError).

(** A token file that cannot be parsed. *)
Definition gmail_invalid_token : gmail :=
  Gmail true (Raise ValueError) (fun _ => Raise RefreshError)
        (Ok tt) (Raise OSError)
        (fun _ => Ok tt) (fun _ => Ok tt)
        (fun _ => Ok []) (fun _ => Raise HttpError).

(** Valid credentials and a mailbox in which nothing matches. *)
Definition gmail_no_match : gmail :=
  Gmail true (Ok (Credentials true false (Some "r"%string)))
        (fun c => Ok c) (Ok tt) (Raise OSError)
        (fun _ => Ok tt) (fun _ => Ok tt)
        (fun _ => Ok []) (fun _ => Raise HttpError).

(** Valid credentials and a service that fails on the listing. *)
Definition gmail_list_fails : gmail :=
  Gmail true (Ok (Credentials true false (Some "r"%string)))
        (fun c => Ok c) (Ok tt) (Raise OSError)
        (fun _ => Ok tt) (fun _ => Ok tt)
        (fun _ => Raise HttpError) (fun _ => Raise HttpError).

(** ** Traces of clicks and of the login *)

(** The calls that [safe_click] may make on [selector]: the wait and the
    click of [Hitclick], both with the page's default timeout, and the
    pause between two attempts. *)
Definition is_click_event (self : BasePage.t) (selector : string) (delay : Q)
           (ev : event) : Prop :=
  match fst ev with
  | LocatorWaitFor s st t =>
      s = selector /\ st = "visible"%string /\ t = BasePage.default_timeout self
  | LocatorClick s t f =>
      s = selector /\ t = BasePage.default_timeout self /\ f = false
  | Sleep d => d = delay
  | _ => False
  end.

(** The wait and the click of one attempt. *)
Definition click_wait (self : BasePage.t) (selector : string) : action :=
  LocatorWaitFor selector "visible" (BasePage.default_timeout self).

Definition click_press (self : BasePage.t) (selector : string) : action :=
  LocatorClick selector (BasePage.default_timeout self) false.

(** The number of click attempts in a trace: each starts with a wait. *)
Fixpoint attempts (tr : list event) : nat :=
  match tr with
  | [] => 0
  | (LocatorWaitFor _ _ _, _) :: r => S (attempts r)
  | _ :: r => attempts r
  end.

(** The last browser call of a trace, pauses left aside. *)
Fixpoint last_call (tr : list event) (acc : option event) : option event :=
  match tr with
  | [] => acc
  | (Sleep _, _) :: r => last_call r acc
  | ev :: r => last_call r (Some ev)
  end.

(** The events of one failed attempt of [Hitclick] on [selector]: the wait
    raised [e], or the wait went through and the click raised [e]. *)
Definition failed_attempt (self : BasePage.t) (selector : string) (e : exn)
           (evs : list event) : Prop :=
  evs = [(click_wait self selector, Some e)]
  \/ evs = [(click_wait self selector, None); (click_press self selector, Some e)].

(** The events of an attempt that went through. *)
Definition good_attempt (self : BasePage.t) (selector : string) : list event :=
  [(click_wait self selector, None); (click_press self selector, None)].

(** Failed attempts, each with the exception it raised, and after each of
    them a pause of [delay] that went through. *)
Definition paused_rounds (delay : Q) (fails : list (exn * list event))
  : list event :=
  flat_map (fun p => snd p ++ [(Sleep delay, None)]) fails.

(** A page on which nothing ever becomes visible. *)
Definition never_visible : env :=
  Env (fun _ a =>
         match a with
         | LocatorWaitFor _ _ _ | WaitForSelector _ _ _ => Some PlaywrightTimeout
         | _ => None
         end)
      (fun _ => None).

Definition empty_world : world := World [] None.

Import Selectors.

(** A computation that only appends events satisfying [P] to the trace. *)
Definition emits {A : Type} (P : event -> Prop) (m : M A) : Prop :=
  forall w, exists new,
    trace (snd (m w)) = trace w ++ new /\ Forall P new.

(** A computation that appends events to the trace and, when it raises,
    has recorded a call that raised. *)
Definition shows_failure {A : Type} (m : M A) : Prop :=
  forall w, exists new,
    trace (snd (m w)) = trace w ++ new
    /\ match fst (m w) with
       | Raise _ => exists a e0, In (a, Some e0) new
       | Ok _ => True
       end.

(** The calls of [NavBarLinks] before it waits for the OTP input. *)
Definition before_otp_wait (ev : event) : Prop :=
  match fst ev with
  | WaitForSelector s _ _ => s = EMAIL_INPUT \/ s = CONTINUE_BUTTON
  | PageFill s _ => s = EMAIL_INPUT
  | LocatorWaitFor s _ _ => s = CONTINUE_BUTTON
  | LocatorClick s _ _ => s = CONTINUE_BUTTON
  | Sleep _ => True
  | _ => False
  end.

(** The wait for the OTP input. *)
Definition otp_wait : action := WaitForSelector OTP_INPUT None 120000.

(** The OTP input is missing at the first wait and would be there at a
    second one. *)
Definition otp_input_late : env :=
  Env (fun tr a =>
         match a with
         | WaitForSelector s _ _ =>
             if String.eqb s OTP_INPUT
                && negb (existsb (fun ev =>
                                    match fst ev with
                                    | WaitForSelector s' _ _ => String.eqb s' OTP_INPUT
                                    | _ => false
                                    end) tr)
             then Some PlaywrightTimeout else None
         | _ => None
         end)
      (fun _ => None).

Section LoginSteps.
Context {R : Runtime}.
Variable E : env.
Variable g : gmail.
Variable self : BasePage.t.

(** The steps of [NavBarLinks] up to the click on the continue button. *)
Definition submit_email (email : text) : M unit :=
  _ <-- perform E (WaitForSelector EMAIL_INPUT None 30000) ;;;
  _ <-- BasePage.type_text E EMAIL_INPUT email ;;;
  _ <-- perform E (WaitForSelector CONTINUE_BUTTON (Some "attached"%string) 30000) ;;;
  BasePage.safe_click E self CONTINUE_BUTTON 3 (1 # 4) (Some 30000%Z).

(** The steps of [NavBarLinks] once the OTP input is there. *)
Definition enter_otp : M unit :=
  otp_code <-- lift (get_latest_email g "subject:code") ;;;
  otp_code <-- match otp_code with
               | Some c =>
                   if truthy c then ret c
                   else raise (PytestFailed "Unable to Get the OTP from Email")
               | None => raise (PytestFailed "Unable to Get the OTP from Email")
               end ;;;
  selector <-- raise (A := string) AttributeError ;;;
  _ <-- perform E (WaitForSelector selector None 30000) ;;;
  _ <-- BasePage.type_text E OTP_INPUT otp_code ;;;
  BasePage.safe_click E self SUBMIT_BUTTON 3 (1 # 4) (Some 30000%Z).

End LoginSteps.

(** The page reloads in a trace. *)
Fixpoint reloads (tr : list event) : nat :=
  match tr with
  | [] => 0
  | (PageReload, _) :: r => S (reloads r)
  | _ :: r => reloads r
  end.

(** The waits for the OTP input in a trace. *)
Fixpoint otp_waits (tr : list event) : nat :=
  match tr with
  | [] => 0
  | (WaitForSelector s _ _, _) :: r =>
      if String.eqb s OTP_INPUT then S (otp_waits r) else otp_waits r
  | _ :: r => otp_waits r
  end.

Import Conftest.

(** ** Traces of the auth state fixtures *)

(** The browser that [create_auth_state] launches. *)
Definition chosen_browser (cfg : pytestconfig) : browser_name :=
  match opt_browser cfg with
  | OptList (b :: _) => b
  | OptList [] => chromium
  | OptName (Some b) => b
  | OptName None => chromium
  end.

(** The browser launches in a trace: each starts a login bootstrap. *)
Fixpoint launches (tr : list event) : nat :=
  match tr with
  | [] => 0
  | (Launch _, _) :: r => S (launches r)
  | _ :: r => launches r
  end.

(** The waits for a selector in a trace, the only way the fixtures look at
    the page. *)
Fixpoint selector_waits (tr : list event) : nat :=
  match tr with
  | [] => 0
  | (WaitForSelector _ _ _, _) :: r => S (selector_waits r)
  | (LocatorWaitFor _ _ _, _) :: r => S (selector_waits r)
  | _ :: r => selector_waits r
  end.

(** The calls between the launch and the export of the storage state. *)
Definition after_launch_event (ev : event) : Prop :=
  match fst ev with
  | NewContext None | NewPage | AddInitScript | Goto _ | Sleep _ => True
  | _ => False
  end.

(** A computation that leaves the auth file alone and appends events
    satisfying [P] to the trace: all of them went through when it returns,
    and when it raises [e] the last one raised [e]. *)
Definition steps {A : Type} (P : event -> Prop) (m : M A) : Prop :=
  forall w, exists new,
    trace (snd (m w)) = trace w ++ new
    /\ auth_file (snd (m w)) = auth_file w
    /\ Forall P new
    /\ match fst (m w) with
       | Ok _ => Forall (fun ev => snd ev = None) new
       | Raise e => exists a pre, new = pre ++ [(a, Some e)]
       end.

Section BootstrapSteps.
Context {R : Runtime}.
Variable E : env.

(** The steps of [create_auth_state] between the launch and the export. *)
Definition after_launch : M unit :=
  _ <-- perform E (NewContext None) ;;;
  _ <-- perform E NewPage ;;;
  _ <-- perform E AddInitScript ;;;
  _ <-- perform E (Goto "https://dmfluxury.com") ;;;
  sleep 150.

(** The export and what follows it. *)
Definition save_state : M string :=
  _ <-- storage_state E AUTH_STATE_FILE ;;;
  _ <-- perform E ContextClose ;;;
  _ <-- (fun w' =>
           if exists_ w' AUTH_STATE_FILE then (Ok tt, w')
           else (Raise (RuntimeError "Failed to create auth storage state."), w')) ;;;
  ret AUTH_STATE_FILE.

End BootstrapSteps.

(** The calls of [create_auth_state] before the export. *)
Definition before_export (ev : event) : Prop :=
  match fst ev with
  | Launch _ | NewContext None | NewPage | AddInitScript | Goto _ | Sleep _ => True
  | _ => False
  end.

(** What the export leaves in the auth file when it is called after the
    events [tr]. *)
Definition file_after_export (E : env) (tr : list event)
           (before : option file_content) : option file_content :=
  match exported E tr with
  | Some c => Some c
  | None => before
  end.

(** The launch at the head of a bootstrap, with its outcome. *)
Definition launch_event (E : env) (cfg : pytestconfig) (w : world) : event :=
  (Launch (chosen_browser cfg),
   outcome E (trace w) (Launch (chosen_browser cfg))).

(** The calls of a bootstrap, in the order of the source. *)
Definition bootstrap_calls (cfg : pytestconfig) : list action :=
  [Launch (chosen_browser cfg); NewContext None; NewPage; AddInitScript;
   Goto "https://dmfluxury.com"; Sleep 150; StorageState AUTH_STATE_FILE;
   ContextClose].

Section Replay.
Context {R : Runtime}.
Variable E : env.

(** What a call does after the events [tr]: a pause asks [time.sleep],
    every other call asks the browser. *)
Definition call_outcome (tr : list event) (a : action) : option exn :=
  match a with
  | Sleep d => to_outcome (time_sleep d)
  | _ => outcome E tr a
  end.

(** The events [new], recorded after [tr], carry the outcomes that the
    browser and [time.sleep] gave at that point. *)
Fixpoint replayed (tr : list event) (new : list event) : Prop :=
  match new with
  | [] => True
  | (a, o) :: r => o = call_outcome tr a /\ replayed (tr ++ [(a, o)]) r
  end.

End Replay.

(** ** Sites and configurations to run the fixtures on *)

(** Every call goes through and the export writes a session. *)
Definition site_all_ok : env :=
  Env (fun _ _ => None) (fun _ => Some (Decodable ["session"%string])).

(** Nobody logs in during the pause: the dashboard header never shows, and
    the export writes a storage state without cookies. *)
Definition site_never_logged_in : env :=
  Env (fun _ a =>
         match a with
         | WaitForSelector _ _ _ | LocatorWaitFor _ _ _ => Some PlaywrightTimeout
         | _ => None
         end)
      (fun _ => Some (Decodable [])).

(** The export writes, then closing the context fails. *)
Definition site_close_fails : env :=
  Env (fun _ a =>
         match a with
         | ContextClose => Some PlaywrightError
         | _ => None
         end)
      (fun _ => Some (Decodable [])).

(** Every call goes through and the export writes nothing. *)
Definition site_writes_nothing : env :=
  Env (fun _ _ => None) (fun _ => None).

(** The navigation fails. *)
Definition site_unreachable : env :=
  Env (fun _ a =>
         match a with
         | Goto _ => Some PlaywrightError
         | _ => None
         end)
      (fun _ => Some (Decodable ["session"%string])).

Definition cfg_default : pytestconfig := Config None false (OptList []).
Definition cfg_recreate : pytestconfig := Config None true (OptList [firefox]).

Definition world_with_state : world :=
  World [] (Some (Decodable ["session"%string])).
Definition world_with_corrupt_state : world := World [] (Some Undecodable).

(** ** Further inputs and vocabulary *)

(** "First 111111 then 222222" in the encoding of the mail service. *)
Definition two_codes_body : string := "Rmlyc3QgMTExMTExIHRoZW4gMjIyMjIy".

(** A plain mail that carries two codes. *)
Definition two_codes_mail : message :=
  Message
    (Some (Part (Some "text/plain"%string) (Some [])
                (Some (Some two_codes_body)) None))
    None.

(** A mailbox with valid credentials whose latest message is [msg]. *)
Definition gmail_with (msg : message) : gmail :=
  Gmail true (Ok (Credentials true false (Some "r"%string)))
        (fun c => Ok c) (Ok tt) (Raise OSError)
        (fun _ => Ok tt) (fun _ => Ok tt)
        (fun _ => Ok ["m1"%string]) (fun _ => Ok msg).

(** The OTP mail as the service returns it when the payload carries no
    ['headers'] key. *)
Definition otp_mail_without_headers : message :=
  Message
    (Some (Part (Some "text/plain"%string) None
                (Some (Some plain_body)) None))
    None.

(** A part that the loop of [extract_text_from_message] passes over: it
    has no ['parts'] key, and it is not [text/plain] or its body has no
    data. *)
Definition passed_over (p : part) : bool :=
  match parts p with
  | Some _ => false
  | None =>
      negb (is_text_plain (mimeType p))
      || match body p with Some None => true | _ => false end
  end.

(** A flat multipart mail: an attachment, the plain text, then HTML. *)
Definition flat_mail : message :=
  let attachment := Part (Some "application/pdf"%string) (Some [])
                         (Some None) None in
  let plain := Part (Some "text/plain"%string) (Some [])
                    (Some (Some plain_body)) None in
  let html := Part (Some "text/html"%string) (Some [])
                   (Some (Some html_body)) None in
  Message
    (Some (Part (Some "multipart/mixed"%string) (Some []) (Some None)
                (Some [attachment; plain; html])))
    None.

(** An expired token with a refresh token, and a refresh that works. *)
Definition gmail_refreshed : gmail :=
  Gmail true (Ok (Credentials false true (Some "r"%string)))
        (fun _ => Ok (Credentials true false (Some "r"%string)))
        (Raise FileNotFoundError) (Raise OSError)
        (fun _ => Ok tt) (fun _ => Ok tt)
        (fun _ => Ok []) (fun _ => Raise HttpError).

(** Where the credentials that [get_gmail_service] builds the service
    from can come from: [stored] are the valid ones of the token file,
    [renewed] come from a refresh of the stored ones or from the
    interactive login. *)
Definition stored (g : gmail) (c : credentials) : Prop :=
  token_file_exists g = true
  /\ from_authorized_user_file g = Ok c
  /\ valid c = true.

Definition renewed (g : gmail) (c : credentials) : Prop :=
  (exists c0,
      token_file_exists g = true
      /\ from_authorized_user_file g = Ok c0
      /\ valid c0 = false
      /\ expired c0 = true
      /\ token_truthy (refresh_token c0) = true
      /\ refresh g c0 = Ok c)
  \/ (from_client_secrets_file g = Ok tt /\ run_local_server g = Ok c).

(** A run of [k] slashes. *)
Definition slashes (k : nat) : string :=
  string_of_list_ascii (repeat "/"%char k).

(** The loop of [rstrip_slash], on the reversed characters. *)
Fixpoint drop_slashes (l : list ascii) : list ascii :=
  match l with
  | c :: l' => if Ascii.eqb c "/" then drop_slashes l' else l
  | [] => []
  end.

Definition ends_with_slash (s : string) : bool :=
  match rev (list_ascii_of_string s) with
  | c :: _ => Ascii.eqb c "/"
  | [] => false
  end.

Definition starts_with_slash (s : string) : bool :=
  match s with
  | String c _ => Ascii.eqb c "/"
  | EmptyString => false
  end.

(** Page objects to run the navigation on. *)
Definition page_with_base : BasePage.t :=
  BasePage.init (Some "https://dmfluxury.com/"%string) 60000.
Definition page_without_base : BasePage.t := BasePage.init None 60000.

Definition page_with_host_path : BasePage.t :=
  BasePage.init (Some "/shop"%string) 60000.

(** The pauses in a trace. *)
Fixpoint sleeps (tr : list event) : nat :=
  match tr with
  | [] => 0
  | (Sleep _, _) :: r => S (sleeps r)
  | _ :: r => sleeps r
  end.

(** A click that fails twice and then goes through. *)
Definition third_click_works : env :=
  Env (fun tr a =>
         match a with
         | LocatorClick _ _ _ =>
             if (attempts tr <? 3)%nat then Some PlaywrightError else None
         | _ => None
         end)
      (fun _ => None).

(** A computation that leaves the auth file as it is. *)
Definition keeps_file {A : Type} (m : M A) : Prop :=
  forall w, auth_file (snd (m w)) = auth_file w.

(** The calls of [NavBarLinks] when each of them goes through. *)
Definition login_calls (self : BasePage.t) (email : text) : list event :=
  [(WaitForSelector EMAIL_INPUT None 30000, None);
   (WaitForSelector EMAIL_INPUT None 20000, None);
   (PageFill EMAIL_INPUT email, None);
   (WaitForSelector CONTINUE_BUTTON (Some "attached"%string) 30000, None);
   (LocatorWaitFor CONTINUE_BUTTON "visible" (BasePage.default_timeout self), None);
   (LocatorClick CONTINUE_BUTTON (BasePage.default_timeout self) false, None);
   (WaitForSelector OTP_INPUT None 120000, None)].

(** * Properties *)

Example plain_body_decoded :
  Reference.b64decode_utf8 plain_body
  = Ok (text_of_string "Your code is 482913. Expires in 10 minutes.").
Proof. vm_compute. reflexivity. Qed.

Example html_body_decoded :
  Reference.b64decode_utf8 html_body
  = Ok (text_of_string "<p>Your code is 482913</p>").
Proof. vm_compute. reflexivity. Qed.

(** ** The OTP pattern *)

Section OtpPattern.
Context {R : Runtime}.

Lemma is_digit_is_word (c : N) : is_digit c = true -> is_word c = true.
Proof.
  unfold is_word. intros ->. now rewrite orb_true_r.
Qed.

Lemma not_word_not_digit (txt : text) (i : nat) :
  word_at txt i = false -> digit_at txt i = false.
Proof.
  unfold word_at, digit_at, word_opt.
  destruct (nth_error txt i) as [c|]; [|reflexivity].
  intros Hw. destruct (is_digit c) eqn:Hd; [|reflexivity].
  apply is_digit_is_word in Hd. congruence.
Qed.

Lemma search_otp_position (s : text) :
  forall prev code,
    search_otp prev s = Some code ->
    exists p, match_otp_at (char_before prev s p) (skipn p s) = Some code.
Proof.
  induction s as [|c s IH]; intros prev code; simpl.
  - destruct (match_otp_at prev []) eqn:Hm.
    + intros [= <-]. exists 0%nat. exact Hm.
    + discriminate.
  - destruct (match_otp_at prev (c :: s)) eqn:Hm.
    + intros [= <-]. exists 0%nat. exact Hm.
    + intros Hs. destruct (IH _ _ Hs) as [p Hp].
      exists (S p). simpl. destruct p; exact Hp.
Qed.

Lemma search_otp_none (s : text) :
  forall prev,
    search_otp prev s = None ->
    forall p, (p <= List.length s)%nat ->
              match_otp_at (char_before prev s p) (skipn p s) = None.
Proof.
  induction s as [|c s IH]; intros prev; simpl.
  - destruct (match_otp_at prev []) eqn:Hm; [discriminate|].
    intros _ p Hp. assert (p = 0%nat) as -> by lia. exact Hm.
  - destruct (match_otp_at prev (c :: s)) eqn:Hm; [discriminate|].
    intros Hs [|p] Hp; [exact Hm|].
    simpl in Hp. specialize (IH _ Hs p ltac:(lia)).
    simpl. destruct p; exact IH.
Qed.

Lemma hd_error_skipn (A : Type) (l : list A) (p : nat) :
  hd_error (skipn p l) = nth_error l p.
Proof.
  revert l. induction p as [|p IH]; intros [|x l]; simpl; auto.
Qed.

Lemma nth_error_firstn_skipn (A : Type) (l : list A) (p k i : nat) :
  (i < k)%nat -> nth_error (firstn k (skipn p l)) i = nth_error l (p + i).
Proof.
  intros Hi. rewrite nth_error_firstn.
  destruct (Nat.ltb_spec i k); [|lia].
  now rewrite nth_error_skipn.
Qed.

Lemma hd_error_rev_six (A : Type) (l : list A) :
  List.length l = 6%nat -> hd_error (rev l) = nth_error l 5.
Proof.
  do 7 (destruct l as [|? l]; try discriminate). reflexivity.
Qed.

Lemma match_otp_at_sound (txt : text) (p : nat) (code : text) :
  match_otp_at (char_before None txt p) (skipn p txt) = Some code ->
  six_digit_match txt p code.
Proof.
  unfold match_otp_at.
  destruct (at_boundary _ _ && _ && _ && _) eqn:Hc; [|discriminate].
  intros [= <-].
  apply andb_prop in Hc as [Hc Hafter].
  apply andb_prop in Hc as [Hc Hdig].
  apply andb_prop in Hc as [Hbefore Hlen].
  apply Nat.eqb_eq in Hlen.
  assert (Hrun : forall i, (p <= i < p + 6)%nat -> digit_at txt i = true).
  { intros i Hi. unfold digit_at.
    replace i with (p + (i - p))%nat by lia.
    rewrite <- (@nth_error_firstn_skipn _ txt p 6 (i - p)) by lia.
    destruct (nth_error (firstn 6 (skipn p txt)) (i - p)) as [c|] eqn:Hn.
    - rewrite forallb_forall in Hdig. apply Hdig.
      eapply nth_error_In; eauto.
    - apply nth_error_None in Hn. lia. }
  assert (Hfirst : word_at txt p = true).
  { unfold word_at. specialize (Hrun p ltac:(lia)). unfold digit_at in Hrun.
    destruct (nth_error txt p); [|discriminate].
    simpl. now apply is_digit_is_word. }
  assert (Hlast : word_at txt (p + 5) = true).
  { unfold word_at. specialize (Hrun (p + 5)%nat ltac:(lia)).
    unfold digit_at in Hrun.
    destruct (nth_error txt (p + 5)); [|discriminate].
    simpl. now apply is_digit_is_word. }
  assert (Hw6 : word_at txt (p + 6) = false).
  { unfold at_boundary in Hafter.
    rewrite hd_error_rev_six in Hafter by exact Hlen.
    rewrite nth_error_firstn_skipn in Hafter by lia.
    rewrite hd_error_skipn, nth_error_skipn in Hafter.
    unfold word_at in *. rewrite Hlast in Hafter.
    destruct (word_opt (nth_error txt (p + 6))); [discriminate Hafter|reflexivity]. }
  rewrite hd_error_skipn in Hbefore. unfold at_boundary in Hbefore.
  unfold word_at in Hfirst. rewrite Hfirst in Hbefore.
  split; [reflexivity|]. split; [exact Hlen|]. split; [exact Hrun|].
  split; [|split; [exact Hw6 | now apply not_word_not_digit]].
  intros q ->. simpl in Hbefore.
  assert (Hq : word_at txt q = false).
  { unfold word_at.
    destruct (word_opt (nth_error txt q)); [discriminate Hbefore|reflexivity]. }
  split; [exact Hq | now apply not_word_not_digit].
Qed.

Lemma digit_at_length (txt : text) (i : nat) :
  digit_at txt i = true -> (i < List.length txt)%nat.
Proof.
  unfold digit_at. destruct (nth_error txt i) eqn:Hn; [|discriminate].
  intros _. apply nth_error_Some. congruence.
Qed.

Lemma digit_at_word_at (txt : text) (i : nat) :
  digit_at txt i = true -> word_at txt i = true.
Proof.
  intros H. destruct (word_at txt i) eqn:Hw; [reflexivity|].
  apply not_word_not_digit in Hw. congruence.
Qed.

Lemma match_otp_at_complete (txt : text) (p : nat) :
  digit_run txt p 6 ->
  (forall q, p = S q -> word_at txt q = false) ->
  word_at txt (p + 6) = false ->
  match_otp_at (char_before None txt p) (skipn p txt)
  = Some (firstn 6 (skipn p txt)).
Proof.
  intros Hrun Hbefore Hafter. unfold match_otp_at.
  assert (Hlen : List.length (firstn 6 (skipn p txt)) = 6%nat).
  { pose proof (digit_at_length _ _ (Hrun (p + 5)%nat ltac:(lia))).
    rewrite length_firstn, length_skipn. lia. }
  assert (Hb1 : at_boundary (char_before None txt p) (hd_error (skipn p txt)) = true).
  { rewrite hd_error_skipn. unfold at_boundary.
    pose proof (digit_at_word_at _ _ (Hrun p ltac:(lia))) as Hw.
    unfold word_at in Hw. rewrite Hw.
    destruct p as [|q]; simpl; [reflexivity|].
    specialize (Hbefore q eq_refl). unfold word_at in Hbefore.
    now rewrite Hbefore. }
  assert (Hd : forallb is_digit (firstn 6 (skipn p txt)) = true).
  { apply forallb_forall. intros x Hx.
    apply In_nth_error in Hx as [i Hi].
    assert (i < 6)%nat as Hlt.
    { rewrite <- Hlen. apply nth_error_Some. congruence. }
    rewrite nth_error_firstn_skipn in Hi by exact Hlt.
    specialize (Hrun (p + i)%nat ltac:(lia)). unfold digit_at in Hrun.
    now rewrite Hi in Hrun. }
  assert (Hb2 : at_boundary (hd_error (rev (firstn 6 (skipn p txt))))
                  (hd_error (skipn 6 (skipn p txt))) = true).
  { rewrite hd_error_rev_six by exact Hlen.
    rewrite nth_error_firstn_skipn by lia.
    rewrite hd_error_skipn, nth_error_skipn. unfold at_boundary.
    pose proof (digit_at_word_at _ _ (Hrun (p + 5)%nat ltac:(lia))) as Hw.
    unfold word_at in Hw, Hafter. now rewrite Hw, Hafter. }
  rewrite Hb1, Hlen, Hd, Hb2. reflexivity.
Qed.

(** C1.  On the text that [extract_text_from_message] decodes,
    [extract_otp] returns only six consecutive digits with no digit (and
    no other word character) on either side: the match never lies inside
    a run of more than six digits and never meets a maximal run of fewer
    than six; a six-digit run between word boundaries is always found;
    the body "Your code is 482913. Expires in 10 minutes." yields
    "482913" and "Order #1234567 shipped" yields nothing. *)
Theorem extract_otp_six_digit_run (msg : message) (txt : text) :
  extract_text_from_message msg = Ok txt ->
  (forall code,
      extract_otp msg = Ok (Some code) ->
      exists p,
        six_digit_match txt p code
        /\ (forall a n, digit_run txt a n -> (6 < n)%nat ->
                        ~ (a <= p /\ p + 6 <= a + n)%nat)
        /\ (forall a n, maximal_digit_run txt a n -> (n < 6)%nat ->
                        ~ (p < a + n /\ a < p + 6)%nat))
  /\ (forall p,
         digit_run txt p 6 ->
         (forall q, p = S q -> word_at txt q = false) ->
         word_at txt (p + 6) = false ->
         exists code, extract_otp msg = Ok (Some code))
  /\ (txt = text_of_string "Your code is 482913. Expires in 10 minutes." ->
      extract_otp msg = Ok (Some (text_of_string "482913")))
  /\ (txt = text_of_string "Order #1234567 shipped" ->
      extract_otp msg = Ok None).
Proof.
  intros Htxt. unfold extract_otp. rewrite Htxt. simpl.
  split; [|split; [|split]].
  - intros code [= Hs].
    apply search_otp_position in Hs as [p Hp].
    apply match_otp_at_sound in Hp.
    exists p. split; [exact Hp|].
    destruct Hp as (_ & _ & Hrun & Hbefore & _ & Hafter).
    split.
    + intros a n Ha Hn [Hlo Hhi].
      destruct (Nat.eq_dec a p) as [->|Hne].
      * specialize (Ha (p + 6)%nat ltac:(lia)). congruence.
      * destruct p as [|q]; [lia|].
        destruct (Hbefore q eq_refl) as [_ Hq].
        specialize (Ha q ltac:(lia)). congruence.
    + intros a n (Ha & Hleft & Hright) Hn [Hlo Hhi].
      destruct (Nat.lt_ge_cases (a + n) (p + 6)) as [Hlt|Hge].
      * specialize (Hrun (a + n)%nat ltac:(lia)). congruence.
      * destruct a as [|q]; [lia|].
        specialize (Hleft q eq_refl).
        specialize (Hrun q ltac:(lia)). congruence.
  - intros p Hrun Hbefore Hafter.
    destruct (search_otp None txt) as [code|] eqn:Hs; [now exists code|].
    pose proof (digit_at_length _ _ (Hrun (p + 5)%nat ltac:(lia))) as Hlen.
    pose proof (@search_otp_none txt None Hs p ltac:(lia)) as Hnone.
    rewrite match_otp_at_complete in Hnone by assumption. discriminate.
  - intros ->. vm_compute. reflexivity.
  - intros ->. vm_compute. reflexivity.
Qed.

End OtpPattern.

Lemma extract_otp_six_digit_run_witness :
  extract_text_from_message (R := Reference.runtime) otp_mail
  = Ok (text_of_string "Your code is 482913. Expires in 10 minutes.")
  /\ extract_otp (R := Reference.runtime) otp_mail
     = Ok (Some (text_of_string "482913")).
Proof.
  assert (H : extract_text_from_message (R := Reference.runtime) otp_mail
              = Ok (text_of_string "Your code is 482913. Expires in 10 minutes."))
    by (vm_compute; reflexivity).
  split; [exact H|].
  exact (proj1 (proj2 (proj2 (extract_otp_six_digit_run (R := Reference.runtime)
                                otp_mail H))) eq_refl).
Defined.

(** ** The walk over the message parts *)

Section PartsWalk.
Context {R : Runtime}.

Lemma scan_parts_cons (self : part -> result text) (p : part) (rest : list part) :
  scan_parts self (p :: rest)
  = let nested :=
      match parts p with
      | Some _ =>
          r <- self p ;;
          if truthy r then Ok r else scan_parts self rest
      | None => scan_parts self rest
      end in
    if is_text_plain (mimeType p) then
      match body p with
      | None => Raise KeyError
      | Some (Some d) => urlsafe_b64decode_utf8 d
      | Some None => nested
      end
    else nested.
Proof. reflexivity. Qed.

Lemma extract_text_from_payload_eq (p : part) :
  extract_text_from_payload p
  = match parts p with
    | Some (x :: rest) => scan_parts extract_text_from_payload (x :: rest)
    | _ =>
        match body_data (body p) with
        | Some d => urlsafe_b64decode_utf8 d
        | None => Ok []
        end
    end.
Proof. destruct p as [m h b [[|x rest]|]]; reflexivity. Qed.

Lemma plain_parts_eq (p : part) :
  plain_parts p
  = (if is_text_plain (mimeType p) then [p] else []) ++ plain_below p.
Proof. destruct p as [m h b [l|]]; reflexivity. Qed.

Lemma no_bare_container_eq (p : part) :
  no_bare_container p
  = negb (bare_container p) && forallb no_bare_container (children p).
Proof. destruct p as [m h b [l|]]; reflexivity. Qed.

Lemma scan_parts_no_plain (l : list part) :
  Forall walk_ok l ->
  forallb no_bare_container l = true ->
  flat_map plain_parts l = [] ->
  scan_parts extract_text_from_payload l = Ok [].
Proof.
  induction l as [|p rest IH]; intros HF Hnb Hpl; [reflexivity|].
  inversion HF as [|? ? Hp HF']; subst.
  simpl in Hnb. apply andb_prop in Hnb as [Hnbp Hnbr].
  simpl in Hpl. apply app_eq_nil in Hpl as [Hpp Hpr].
  rewrite plain_parts_eq in Hpp. apply app_eq_nil in Hpp as [Hmime Hbelow].
  rewrite scan_parts_cons. cbv zeta.
  destruct (is_text_plain (mimeType p)); [discriminate|].
  destruct (parts p) eqn:Hparts; [|now apply IH].
  destruct (Hp Hnbp) as [Hnone _].
  rewrite Hnone; [|exact Hbelow|congruence].
  simpl. now apply IH.
Qed.

Lemma scan_parts_one_plain (t : part) (d : string) (l : list part) :
  body t = Some (Some d) ->
  Forall walk_ok l ->
  forallb no_bare_container l = true ->
  flat_map plain_parts l = [t] ->
  scan_parts extract_text_from_payload l = urlsafe_b64decode_utf8 d.
Proof.
  intros Hbody.
  induction l as [|p rest IH]; intros HF Hnb Hpl; [discriminate|].
  inversion HF as [|? ? Hp HF']; subst.
  simpl in Hnb. apply andb_prop in Hnb as [Hnbp Hnbr].
  simpl in Hpl. rewrite scan_parts_cons. cbv zeta.
  apply app_eq_unit in Hpl as [[Hpp Hpr]|[Hpp Hpr]].
  - rewrite plain_parts_eq in Hpp. apply app_eq_nil in Hpp as [Hmime Hbelow].
    destruct (is_text_plain (mimeType p)); [discriminate|].
    destruct (parts p) eqn:Hparts; [|now apply IH].
    destruct (Hp Hnbp) as [Hnone _].
    rewrite Hnone; [|exact Hbelow|congruence].
    simpl. now apply IH.
  - rewrite plain_parts_eq in Hpp.
    destruct (is_text_plain (mimeType p)).
    + injection Hpp as -> _. now rewrite Hbody.
    + simpl in Hpp.
      destruct (parts p) eqn:Hparts.
      * destruct (Hp Hnbp) as [_ Hone].
        rewrite (Hone _ _ Hpp Hbody).
        destruct (urlsafe_b64decode_utf8 d) as [[|c r]|e]; simpl; auto.
        now apply scan_parts_no_plain.
      * unfold plain_below, children in Hpp. rewrite Hparts in Hpp.
        discriminate.
Qed.

Lemma walk_ok_all (x : part) : walk_ok x.
Proof.
  induction x as [x IH] using part_children_ind.
  intros Hnb. rewrite no_bare_container_eq in Hnb.
  apply andb_prop in Hnb as [Hx Hch].
  rewrite extract_text_from_payload_eq.
  unfold plain_below in *. unfold children in *.
  unfold bare_container in Hx.
  destruct (parts x) as [[|p rest]|].
  - split.
    + intros _ _. destruct (body_data (body x)); [discriminate|reflexivity].
    + intros t d Ht. discriminate.
  - split.
    + intros Hpl _. now apply scan_parts_no_plain.
    + intros t d Hpl Hbody. now apply scan_parts_one_plain with (t := t).
  - split.
    + intros _ Hn. congruence.
    + intros t d Ht. discriminate.
Qed.

End PartsWalk.

Example bare_container_wins :
  extract_text_from_message (R := Reference.runtime) bare_container_mail
  = Ok (text_of_string "<p>Your code is 482913</p>").
Proof. vm_compute. reflexivity. Qed.

(** C4, as stated, fails: this mail has no [text/plain] part anywhere and
    [extract_otp] still returns a code, taken from the HTML body. *)
Lemma no_plain_part_yields_code :
  message_plain_parts html_mail = []
  /\ extract_otp (R := Reference.runtime) html_mail
     = Ok (Some (text_of_string "482913"))
  /\ extract_otp (R := Reference.runtime) html_mail <> Ok None.
Proof.
  split; [reflexivity|].
  split; [vm_compute; reflexivity|].
  vm_compute. discriminate.
Qed.

(** C4, amended.  For a message whose payload lists parts, none of them
    (at any depth) a part with an empty ['parts'] list and body data: if
    exactly one part below the payload has MIME type [text/plain] and its
    body has data, [extract_text_from_message] returns what decoding this
    data gives, at whatever depth the part is nested; if no part below the
    payload has MIME type [text/plain], it returns the empty string and
    [extract_otp] returns [None]. *)
Theorem extract_text_multipart
        (R : Runtime) (msg : message) (pl p : part) (rest : list part) :
  payload msg = Some pl ->
  parts pl = Some (p :: rest) ->
  no_bare_container pl = true ->
  (forall t d,
      plain_below pl = [t] -> body t = Some (Some d) ->
      extract_text_from_message msg = urlsafe_b64decode_utf8 d)
  /\ (plain_below pl = [] ->
      extract_text_from_message msg = Ok [] /\ extract_otp msg = Ok None).
Proof.
  intros Hpl Hparts Hnb.
  destruct (walk_ok_all pl Hnb) as [Hnone Hone].
  unfold extract_otp, extract_text_from_message. rewrite Hpl.
  split.
  - intros t d Ht Hd. now apply Hone with (t := t).
  - intros Hno. rewrite Hnone; [|exact Hno|congruence].
    split; reflexivity.
Qed.

Lemma extract_text_multipart_witness :
  extract_text_from_message (R := Reference.runtime) nested_mail
  = Ok (text_of_string "Your code is 482913. Expires in 10 minutes.")
  /\ extract_otp (R := Reference.runtime) html_only_multipart = Ok None.
Proof.
  split.
  - refine (eq_trans
              (proj1 (@extract_text_multipart Reference.runtime nested_mail
                        _ _ _ eq_refl eq_refl eq_refl) _ _ eq_refl eq_refl) _).
    vm_compute. reflexivity.
  - exact (proj2 (proj2 (@extract_text_multipart Reference.runtime
                           html_only_multipart _ _ _ eq_refl eq_refl eq_refl)
                        eq_refl)).
Defined.

(** C9.  A message without parts (no ['parts'] key, or an empty list) whose
    payload body has data: [extract_text_from_message] returns the decoded
    body whatever the MIME type [m], so [extract_otp] returns the code found
    in it, also when the body is not [text/plain]. *)
Theorem simple_message_decodes_body
        (R : Runtime) (msg : message) (m : option string)
        (h : option (list (string * string))) (b : option (option string))
        (ps : option (list part)) (d : string) :
  payload msg = Some (Part m h b ps) ->
  ps = None \/ ps = Some [] ->
  body_data b = Some d ->
  extract_text_from_message msg = urlsafe_b64decode_utf8 d
  /\ (forall txt code,
         urlsafe_b64decode_utf8 d = Ok txt ->
         search_otp None txt = Some code ->
         extract_otp msg = Ok (Some code)).
Proof.
  intros Hpl Hps Hd.
  assert (He : extract_text_from_message msg = urlsafe_b64decode_utf8 d).
  { unfold extract_text_from_message. rewrite Hpl.
    destruct Hps as [-> | ->]; simpl; now rewrite Hd. }
  split; [exact He|].
  intros txt code Htxt Hs. unfold extract_otp.
  rewrite He, Htxt. simpl. now rewrite Hs.
Qed.

Lemma simple_message_decodes_body_witness :
  extract_text_from_message (R := Reference.runtime) html_mail
  = Ok (text_of_string "<p>Your code is 482913</p>")
  /\ extract_otp (R := Reference.runtime) html_mail
     = Ok (Some (text_of_string "482913")).
Proof.
  pose (H := @simple_message_decodes_body Reference.runtime html_mail
               _ _ _ _ _ eq_refl (or_introl eq_refl) eq_refl).
  split.
  - refine (eq_trans (proj1 H) _). vm_compute. reflexivity.
  - apply (proj2 H (text_of_string "<p>Your code is 482913</p>")).
    + vm_compute. reflexivity.
    + vm_compute. reflexivity.
Defined.

(** ** The mailbox client *)

(** C5, as stated, fails: without credentials, with an unreadable token
    file and with no matching message the caller receives the same value,
    [None]. *)
Lemma missing_credentials_look_like_no_match :
  get_latest_email (R := Reference.runtime) gmail_no_credentials "subject:code" = Ok None
  /\ get_latest_email (R := Reference.runtime) gmail_invalid_token "subject:code" = Ok None
  /\ get_latest_email (R := Reference.runtime) gmail_no_match "subject:code" = Ok None
  /\ get_latest_email (R := Reference.runtime) gmail_no_credentials "subject:code"
     = get_latest_email (R := Reference.runtime) gmail_no_match "subject:code".
Proof. repeat split; reflexivity. Qed.

(** C5, amended.  Every exception of class [Exception] raised while the
    service is set up (a missing client secrets file, an unreadable token
    or secrets file, a failed refresh) is caught and [get_latest_email]
    returns [None], the value it also returns when no message matches the
    query; an exception raised by the listing or by the fetch of the
    message is not caught and reaches the caller as it is. *)
Theorem get_latest_email_outcomes (R : Runtime) (g : gmail) (query : string) :
  (forall e, get_gmail_service g = Raise e -> is_Exception e = true ->
             get_latest_email g query = Ok None)
  /\ (token_file_exists g = false ->
      forall e, from_client_secrets_file g = Raise e -> is_Exception e = true ->
                get_latest_email g query = Ok None)
  /\ (token_file_exists g = true ->
      forall e, from_authorized_user_file g = Raise e -> is_Exception e = true ->
                get_latest_email g query = Ok None)
  /\ (get_gmail_service g = Ok tt -> messages_list g query = Ok [] ->
      get_latest_email g query = Ok None)
  /\ (forall e, get_gmail_service g = Ok tt -> messages_list g query = Raise e ->
                get_latest_email g query = Raise e)
  /\ (forall e msg_id ids,
         get_gmail_service g = Ok tt ->
         messages_list g query = Ok (msg_id :: ids) ->
         messages_get g msg_id = Raise e ->
         get_latest_email g query = Raise e).
Proof.
  assert (Hcaught : forall e, get_gmail_service g = Raise e ->
                              is_Exception e = true ->
                              get_latest_email g query = Ok None).
  { intros e He Hexc. unfold get_latest_email. rewrite He.
    destruct e; try reflexivity; discriminate. }
  split; [exact Hcaught|].
  split; [|split; [|split; [|split]]].
  - intros Htok e He Hexc. apply Hcaught with (e := e); [|exact Hexc].
    unfold get_gmail_service, interactive_login. now rewrite Htok, He.
  - intros Htok e He Hexc. apply Hcaught with (e := e); [|exact Hexc].
    unfold get_gmail_service. now rewrite Htok, He.
  - intros Hs Hl. unfold get_latest_email. now rewrite Hs, Hl.
  - intros e Hs Hl. unfold get_latest_email. now rewrite Hs, Hl.
  - intros e msg_id ids Hs Hl Hg. unfold get_latest_email.
    rewrite Hs, Hl. simpl. now rewrite Hg.
Qed.

Lemma get_latest_email_outcomes_witness :
  get_latest_email (R := Reference.runtime) gmail_no_credentials "subject:code" = Ok None
  /\ get_latest_email (R := Reference.runtime) gmail_invalid_token "subject:code" = Ok None
  /\ get_latest_email (R := Reference.runtime) gmail_no_match "subject:code" = Ok None
  /\ get_latest_email (R := Reference.runtime) gmail_list_fails "subject:code" = Raise HttpError.
Proof.
  split; [|split; [|split]].
  - exact (proj1 (proj2 (@get_latest_email_outcomes Reference.runtime
                           gmail_no_credentials "subject:code"))
                 eq_refl FileNotFoundError eq_refl eq_refl).
  - exact (proj1 (proj2 (proj2 (@get_latest_email_outcomes Reference.runtime
                                  gmail_invalid_token "subject:code")))
                 eq_refl ValueError eq_refl eq_refl).
  - exact (proj1 (proj2 (proj2 (proj2 (@get_latest_email_outcomes Reference.runtime
                                         gmail_no_match "subject:code"))))
                 eq_refl eq_refl).
  - exact (proj1 (proj2 (proj2 (proj2 (proj2 (@get_latest_email_outcomes
                                                Reference.runtime
                                                gmail_list_fails "subject:code")))))
                 HttpError eq_refl eq_refl).
Defined.

(** ** Retried clicks *)

Section SafeClick.
Context {R : Runtime}.
Variable E : env.
Variable self : BasePage.t.
Variable selector : string.
Variable delay : Q.

Local Abbreviation wait_ev := (click_wait self selector).
Local Abbreviation click_ev := (click_press self selector).

Lemma attempts_app (a b : list event) :
  attempts (a ++ b) = (attempts a + attempts b)%nat.
Proof.
  induction a as [|[[] o] a IH]; simpl; auto.
Qed.

Lemma last_call_app (a b : list event) (acc : option event) :
  last_call (a ++ b) acc = last_call b (last_call a acc).
Proof.
  revert acc. induction a as [|[[] o] a IH]; intros acc; simpl; auto.
Qed.

Lemma Hitclick_cases (w : world) :
  (exists e, BasePage.Hitclick E self selector None false w
             = (Raise e, log wait_ev (Some e) w))
  \/ (exists e, BasePage.Hitclick E self selector None false w
                = (Raise e, log click_ev (Some e) (log wait_ev None w)))
  \/ BasePage.Hitclick E self selector None false w
     = (Ok tt, log click_ev None (log wait_ev None w)).
Proof.
  unfold BasePage.Hitclick, bindM, perform, click_wait, click_press.
  simpl BasePage.timeout_or.
  destruct (outcome E (trace w)
              (LocatorWaitFor selector "visible" (BasePage.default_timeout self)))
    as [e|] eqn:Hw; simpl.
  - left. now exists e.
  - match goal with
    | |- context [outcome E ?tr ?a] => destruct (outcome E tr a) as [e|] eqn:Hc
    end; simpl.
    + right. left. now exists e.
    + right. right. reflexivity.
Qed.

Lemma safe_click_loop_S (n : nat) (last_exc : option exn) (w : world) :
  BasePage.safe_click_loop E self selector delay (S n) last_exc w
  = match BasePage.Hitclick E self selector None false w with
    | (Ok _, w') => (Ok tt, w')
    | (Raise e, w') =>
        if is_Exception e then
          match time_sleep delay with
          | Ok _ =>
              BasePage.safe_click_loop E self selector delay n (Some e)
                (log (Sleep delay) None w')
          | Raise e' => (Raise e', log (Sleep delay) (Some e') w')
          end
        else (Raise e, w')
    end.
Proof.
  simpl. unfold bindM, BasePage.click_attempt.
  destruct (BasePage.Hitclick E self selector None false w) as [[u|e] w'];
    [reflexivity|].
  destruct (is_Exception e); [|reflexivity].
  unfold sleep, ret. destruct (time_sleep delay); reflexivity.
Qed.

(** The events of the loop, whatever the pause does. *)
Lemma safe_click_loop_events (n : nat) :
  forall last_exc w,
  exists new,
    trace (snd (BasePage.safe_click_loop E self selector delay n last_exc w))
    = trace w ++ new
    /\ auth_file (snd (BasePage.safe_click_loop E self selector delay n last_exc w))
       = auth_file w
    /\ Forall (is_click_event self selector delay) new
    /\ (attempts new <= n)%nat.
Proof.
  induction n as [|n IH]; intros last_exc w.
  - exists []. simpl. rewrite app_nil_r.
    destruct last_exc; simpl; repeat split; auto.
  - rewrite safe_click_loop_S.
    destruct (Hitclick_cases w) as [[e He]|[[e He]|He]]; rewrite He.
    + destruct (is_Exception e).
      * destruct (time_sleep delay) as [u|e'].
        -- destruct (IH (Some e) (log (Sleep delay) None (log wait_ev (Some e) w)))
             as (new & Htr & Hf & Hall & Hcnt).
           exists ((wait_ev, Some e) :: (Sleep delay, None) :: new).
           rewrite Htr, Hf. simpl. rewrite <- !app_assoc. simpl.
           repeat split; auto; [|lia].
           repeat constructor; auto.
        -- exists [(wait_ev, Some e); (Sleep delay, Some e')]. simpl.
           rewrite <- !app_assoc. simpl.
           repeat split; auto; [|lia]. repeat constructor; auto.
      * exists [(wait_ev, Some e)]. simpl.
        repeat split; auto; [|lia]. repeat constructor; auto.
    + destruct (is_Exception e).
      * destruct (time_sleep delay) as [u|e'].
        -- destruct (IH (Some e) (log (Sleep delay) None
                                     (log click_ev (Some e) (log wait_ev None w))))
             as (new & Htr & Hf & Hall & Hcnt).
           exists ((wait_ev, None) :: (click_ev, Some e) :: (Sleep delay, None) :: new).
           rewrite Htr, Hf. simpl. rewrite <- !app_assoc. simpl.
           repeat split; auto; [|lia].
           repeat constructor; auto.
        -- exists [(wait_ev, None); (click_ev, Some e); (Sleep delay, Some e')].
           simpl. rewrite <- !app_assoc. simpl.
           repeat split; auto; [|lia]. repeat constructor; auto.
      * exists [(wait_ev, None); (click_ev, Some e)]. simpl.
        rewrite <- !app_assoc. simpl.
        repeat split; auto; [|lia]. repeat constructor; auto.
    + exists [(wait_ev, None); (click_ev, None)]. simpl.
      rewrite <- !app_assoc. simpl.
      repeat split; auto; [|lia]. repeat constructor; auto.
Qed.

(** The result of the loop when [time.sleep] accepts the pause: [acc] is
    the last browser call made before the loop is entered. *)
Lemma safe_click_loop_result (Hsleep : time_sleep delay = Ok tt) (n : nat) :
  forall last_exc w acc,
    match last_exc with
    | Some e' => exists a, acc = Some (a, Some e')
    | None => True
    end ->
    exists new,
      trace (snd (BasePage.safe_click_loop E self selector delay n last_exc w))
      = trace w ++ new
      /\ match fst (BasePage.safe_click_loop E self selector delay n last_exc w) with
         | Ok _ => last_call new acc = Some (click_ev, None)
         | Raise e =>
             ((exists a, last_call new acc = Some (a, Some e))
              \/ (last_exc = None /\ n = 0%nat /\ e = TypeError))
             /\ (is_Exception e = true -> attempts new = n)
         end.
Proof.
  induction n as [|n IH]; intros last_exc w acc Hacc.
  - exists []. simpl. rewrite app_nil_r.
    destruct last_exc as [e'|]; simpl.
    + destruct Hacc as [a ->]. repeat split; eauto.
    + repeat split; auto.
  - rewrite safe_click_loop_S.
    destruct (Hitclick_cases w) as [[e He]|[[e He]|He]]; rewrite He.
    + destruct (is_Exception e) eqn:Hexc.
      * rewrite Hsleep.
        destruct (IH (Some e) (log (Sleep delay) None (log wait_ev (Some e) w))
                     (Some (wait_ev, Some e)) (ex_intro _ wait_ev eq_refl))
          as (new & Htr & Hres).
        exists ((wait_ev, Some e) :: (Sleep delay, None) :: new).
        rewrite Htr. simpl. rewrite <- !app_assoc. simpl.
        split; [reflexivity|].
        destruct (fst (BasePage.safe_click_loop E self selector delay n (Some e) _))
          as [u|e2]; [exact Hres|].
        destruct Hres as [[Hl|[Hl _]] Hcnt]; [|discriminate].
        split; [now left | intros Hx; now rewrite Hcnt].
      * exists [(wait_ev, Some e)]. simpl.
        split; [reflexivity|]. split; [left; eauto | congruence].
    + destruct (is_Exception e) eqn:Hexc.
      * rewrite Hsleep.
        destruct (IH (Some e) (log (Sleep delay) None
                                 (log click_ev (Some e) (log wait_ev None w)))
                     (Some (click_ev, Some e)) (ex_intro _ click_ev eq_refl))
          as (new & Htr & Hres).
        exists ((wait_ev, None) :: (click_ev, Some e) :: (Sleep delay, None) :: new).
        rewrite Htr. simpl. rewrite <- !app_assoc. simpl.
        split; [reflexivity|].
        destruct (fst (BasePage.safe_click_loop E self selector delay n (Some e) _))
          as [u|e2]; [exact Hres|].
        destruct Hres as [[Hl|[Hl _]] Hcnt]; [|discriminate].
        split; [now left | intros Hx; now rewrite Hcnt].
      * exists [(wait_ev, None); (click_ev, Some e)]. simpl.
        rewrite <- !app_assoc. simpl.
        split; [reflexivity|]. split; [left; eauto | congruence].
    + exists [(wait_ev, None); (click_ev, None)]. simpl.
      rewrite <- !app_assoc. simpl. split; reflexivity.
Qed.

End SafeClick.

Section Pauses.
Context {R : Runtime}.
Variable E : env.
Variable self : BasePage.t.
Variable selector : string.
Variable delay : Q.

Lemma sleeps_app (a b : list event) :
  sleeps (a ++ b) = (sleeps a + sleeps b)%nat.
Proof. induction a as [|[[] o] a IH]; simpl; auto. Qed.

Lemma safe_click_loop_pauses (Hsleep : time_sleep delay = Ok tt) (n : nat) :
  forall last_exc w,
    match last_exc with
    | Some e' => is_Exception e' = true
    | None => True
    end ->
    exists new,
      trace (snd (BasePage.safe_click_loop E self selector delay n last_exc w))
      = trace w ++ new
      /\ match fst (BasePage.safe_click_loop E self selector delay n last_exc w) with
         | Ok _ => attempts new = S (sleeps new)
         | Raise e =>
             if is_Exception e
             then attempts new = sleeps new /\ attempts new = n
             else attempts new = S (sleeps new)
         end.
Proof.
  induction n as [|n IH]; intros last_exc w Hlast.
  - exists []. simpl. rewrite app_nil_r.
    destruct last_exc as [e'|]; simpl; [rewrite Hlast|]; auto.
  - rewrite safe_click_loop_S.
    destruct (Hitclick_cases E self selector w) as [[e He]|[[e He]|He]];
      rewrite He.
    + destruct (is_Exception e) eqn:Hexc.
      * rewrite Hsleep.
        destruct (IH (Some e) (log (Sleep delay) None
                                 (log (click_wait self selector) (Some e) w)) Hexc)
          as (new & Htr & Hres).
        exists ((click_wait self selector, Some e) :: (Sleep delay, None) :: new).
        rewrite Htr. simpl. rewrite <- !app_assoc. simpl.
        split; [reflexivity|].
        destruct (fst (BasePage.safe_click_loop E self selector delay n (Some e) _))
          as [u|e2]; [lia|].
        destruct (is_Exception e2); lia.
      * exists [(click_wait self selector, Some e)]. simpl.
        rewrite Hexc. auto.
    + destruct (is_Exception e) eqn:Hexc.
      * rewrite Hsleep.
        destruct (IH (Some e)
                     (log (Sleep delay) None
                        (log (click_press self selector) (Some e)
                           (log (click_wait self selector) None w))) Hexc)
          as (new & Htr & Hres).
        exists ((click_wait self selector, None)
                  :: (click_press self selector, Some e)
                  :: (Sleep delay, None) :: new).
        rewrite Htr. simpl. rewrite <- !app_assoc. simpl.
        split; [reflexivity|].
        destruct (fst (BasePage.safe_click_loop E self selector delay n (Some e) _))
          as [u|e2]; [lia|].
        destruct (is_Exception e2); lia.
      * exists [(click_wait self selector, None);
                (click_press self selector, Some e)]. simpl.
        rewrite <- !app_assoc. rewrite Hexc. auto.
    + exists [(click_wait self selector, None); (click_press self selector, None)].
      simpl. rewrite <- !app_assoc. auto.
Qed.

End Pauses.

Section Rounds.
Context {R : Runtime}.
Variable E : env.
Variable self : BasePage.t.
Variable selector : string.
Variable delay : Q.

Lemma last_cons_default (A : Type) (l : list A) :
  forall a d, last (a :: l) d = last l a.
Proof.
  induction l as [|b l IH]; intros a d; [reflexivity|].
  change (last (a :: b :: l) d) with (last (b :: l) d).
  now rewrite (IH b d), (IH b a).
Qed.

(** One call of [Hitclick]: the wait and the click went through, or one
    of them raised and nothing was called after it. *)
Lemma Hitclick_attempt (w : world) :
  BasePage.Hitclick E self selector None false w
  = (Ok tt, World (trace w ++ good_attempt self selector) (auth_file w))
  \/ exists e evs,
      failed_attempt self selector e evs
      /\ BasePage.Hitclick E self selector None false w
         = (Raise e, World (trace w ++ evs) (auth_file w)).
Proof.
  destruct (Hitclick_cases E self selector w) as [[e He]|[[e He]|He]].
  - right. exists e, [(click_wait self selector, Some e)].
    split; [left; reflexivity | exact He].
  - right. exists e, [(click_wait self selector, None);
                      (click_press self selector, Some e)].
    split; [right; reflexivity|]. rewrite He. unfold log. simpl.
    now rewrite <- app_assoc.
  - left. rewrite He. unfold log, good_attempt. simpl.
    now rewrite <- app_assoc.
Qed.

(** The whole course of the loop: failed attempts, each followed by a
    pause, and then the end: the attempts are used up, an attempt went
    through, an attempt raised outside [Exception], or the pause raised. *)
Lemma safe_click_loop_rounds (n : nat) :
  forall last_exc w,
  exists fails final,
    trace (snd (BasePage.safe_click_loop E self selector delay n last_exc w))
    = trace w ++ paused_rounds delay fails ++ final
    /\ Forall (fun p => is_Exception (fst p) = true
                        /\ failed_attempt self selector (fst p) (snd p)) fails
    /\ match fst (BasePage.safe_click_loop E self selector delay n last_exc w) with
       | Ok _ => final = good_attempt self selector /\ (List.length fails < n)%nat
       | Raise e =>
           (final = [] /\ List.length fails = n
            /\ e = last (map fst fails)
                        (match last_exc with Some e0 => e0 | None => TypeError end))
           \/ ((List.length fails < n)%nat /\ is_Exception e = false
               /\ failed_attempt self selector e final)
           \/ ((List.length fails < n)%nat /\ time_sleep delay = Raise e
               /\ exists e0 evs,
                   is_Exception e0 = true
                   /\ failed_attempt self selector e0 evs
                   /\ final = evs ++ [(Sleep delay, Some e)])
       end.
Proof.
  induction n as [|n IH]; intros last_exc w.
  - exists [], []. simpl. rewrite app_nil_r.
    destruct last_exc; simpl; (split; [reflexivity|]); (split; [constructor|]);
      left; auto.
  - rewrite safe_click_loop_S.
    destruct (Hitclick_attempt w) as [He|(e & evs & Hevs & He)]; rewrite He.
    + exists [], (good_attempt self selector). simpl.
      split; [reflexivity|]. split; [constructor|]. split; [reflexivity | lia].
    + destruct (is_Exception e) eqn:Hexc.
      * destruct (time_sleep delay) as [u|e'] eqn:Hs.
        -- destruct (IH (Some e)
                        (log (Sleep delay) None
                             (World (trace w ++ evs) (auth_file w))))
             as (fails & final & Htr & Hall & Hres).
           exists ((e, evs) :: fails), final.
           split.
           { rewrite Htr. unfold paused_rounds. simpl.
             now rewrite <- !app_assoc. }
           split; [constructor; auto|].
           destruct (fst (BasePage.safe_click_loop E self selector delay n (Some e) _))
             as [u'|e2].
           ++ destruct Hres as [-> Hlen]. split; [reflexivity | simpl; lia].
           ++ destruct Hres as [(-> & Hlen & ->)|[(Hlen & Hx & Hf)|(Hlen & Hr & Hx)]].
              ** left. split; [reflexivity|]. split; [simpl; lia|].
                 simpl map. now rewrite last_cons_default.
              ** right. left. split; [simpl; lia | auto].
              ** right. right. split; [simpl; lia | auto].
        -- exists [], (evs ++ [(Sleep delay, Some e')]). simpl.
           split; [now rewrite <- app_assoc|]. split; [constructor|].
           right. right. split; [lia|]. split; [reflexivity|].
           exists e, evs. auto.
      * exists [], evs. simpl. split; [reflexivity|]. split; [constructor|].
        right. left. split; [lia | auto].
Qed.

End Rounds.

(** C10, as stated, fails: with a negative pause the single attempt raises
    the timeout of the wait, [time.sleep] then raises [ValueError] inside
    the handler, and that is what [safe_click] raises; with no retries at
    all there is no exception to raise again and it raises [TypeError]. *)
Lemma safe_click_raises_another_exception :
  let self := BasePage.init None 60000 in
  let res := BasePage.safe_click (R := Reference.runtime) never_visible self
               "button" 1 (-1 # 1) (Some 30000%Z) empty_world in
  let res0 := BasePage.safe_click (R := Reference.runtime) never_visible self
                "button" 0 (1 # 4) (Some 30000%Z) empty_world in
  trace (snd res)
  = [(LocatorWaitFor "button" "visible" 60000, Some PlaywrightTimeout);
     (Sleep (-1 # 1), Some ValueError)]
  /\ fst res = Raise ValueError
  /\ fst res <> Raise PlaywrightTimeout
  /\ trace (snd res0) = []
  /\ fst res0 = Raise TypeError.
Proof.
  vm_compute. repeat split; try reflexivity. discriminate.
Qed.

(** C10, amended.  [safe_click] ignores its [timeout] argument: it makes at
    most [retries] attempts, each the wait and the click of [Hitclick] on
    the selector with the page's [default_timeout], with a pause of
    [retry_delay] after a failed one.  Its calls are failed attempts that
    raised in class [Exception], each followed by a pause that went
    through, and then the end: the attempts are used up and the exception
    of the last one is raised ([TypeError] when there was none), or an
    attempt went through, or an attempt raised outside [Exception] and
    that is raised, or the pause raised and that is raised.  When
    [retries] is at least 1 and [time.sleep] accepts [retry_delay]: if it
    returns, the last call is a click that went through; if it raises [e],
    the last browser call raised this [e], and when [e] is of class
    [Exception] all [retries] attempts were made, with a pause after each
    of them. *)
Theorem safe_click_default_timeout
        (R : Runtime) (E : env) (self : BasePage.t) (selector : string)
        (retries : Z) (retry_delay : Q) (timeout : option Z) (w : world) :
  (forall timeout',
      BasePage.safe_click E self selector retries retry_delay timeout' w
      = BasePage.safe_click E self selector retries retry_delay timeout w)
  /\ exists new,
      trace (snd (BasePage.safe_click E self selector retries retry_delay timeout w))
      = trace w ++ new
      /\ auth_file (snd (BasePage.safe_click E self selector retries retry_delay timeout w))
         = auth_file w
      /\ Forall (is_click_event self selector retry_delay) new
      /\ (attempts new <= Z.to_nat retries)%nat
      /\ (exists fails final,
             new = paused_rounds retry_delay fails ++ final
             /\ Forall (fun p => is_Exception (fst p) = true
                                 /\ failed_attempt self selector (fst p) (snd p))
                       fails
             /\ match fst (BasePage.safe_click E self selector retries
                             retry_delay timeout w) with
                | Ok _ =>
                    final = good_attempt self selector
                    /\ (List.length fails < Z.to_nat retries)%nat
                | Raise e =>
                    (final = [] /\ List.length fails = Z.to_nat retries
                     /\ e = last (map fst fails) TypeError)
                    \/ ((List.length fails < Z.to_nat retries)%nat
                        /\ is_Exception e = false
                        /\ failed_attempt self selector e final)
                    \/ ((List.length fails < Z.to_nat retries)%nat
                        /\ time_sleep retry_delay = Raise e
                        /\ exists e0 evs,
                            is_Exception e0 = true
                            /\ failed_attempt self selector e0 evs
                            /\ final = evs ++ [(Sleep retry_delay, Some e)])
                end)
      /\ ((0 < retries)%Z -> time_sleep retry_delay = Ok tt ->
          match fst (BasePage.safe_click E self selector retries retry_delay timeout w) with
          | Ok _ =>
              last_call new None
              = Some (LocatorClick selector (BasePage.default_timeout self) false, None)
              /\ attempts new = S (sleeps new)
          | Raise e =>
              (exists a, last_call new None = Some (a, Some e))
              /\ (is_Exception e = true ->
                  attempts new = Z.to_nat retries /\ sleeps new = Z.to_nat retries)
              /\ (is_Exception e = false -> attempts new = S (sleeps new))
          end).
Proof.
  split; [reflexivity|].
  unfold BasePage.safe_click.
  destruct (@safe_click_loop_events R E self selector retry_delay
              (Z.to_nat retries) None w) as (new & Htr & Hf & Hall & Hcnt).
  exists new. repeat (split; [assumption|]).
  split.
  - destruct (@safe_click_loop_rounds R E self selector retry_delay
                (Z.to_nat retries) None w) as (fails & final & Htr' & Hfails & Hend).
    exists fails, final. split; [|split; assumption].
    rewrite Htr in Htr'. now apply app_inv_head in Htr'.
  - intros Hpos Hsleep.
    destruct (@safe_click_loop_result R E self selector retry_delay Hsleep
                (Z.to_nat retries) None w None I) as (new' & Htr' & Hres).
    assert (new' = new) as ->.
    { rewrite Htr in Htr'. now apply app_inv_head in Htr'. }
    destruct (@safe_click_loop_pauses R E self selector retry_delay Hsleep
                (Z.to_nat retries) None w I) as (new' & Htr2 & Hp).
    assert (new' = new) as ->.
    { rewrite Htr in Htr2. now apply app_inv_head in Htr2. }
    destruct (fst (BasePage.safe_click_loop E self selector retry_delay
                     (Z.to_nat retries) None w)) as [u|e]; [now split|].
    destruct Hres as [[Hl|(_ & Hn & _)] Hc]; [|lia].
    split; [exact Hl|].
    destruct (is_Exception e); split; intros Hx; try discriminate Hx; auto.
    destruct Hp as [H1 H2]. split; congruence.
Qed.

Lemma safe_click_default_timeout_witness :
  (0 < 3)%Z
  /\ time_sleep (Runtime := Reference.runtime) (1 # 4) = Ok tt
  /\ exists new,
      trace (snd (BasePage.safe_click (R := Reference.runtime) never_visible
                    (BasePage.init None 60000) "button" 3 (1 # 4)
                    (Some 30000%Z) empty_world))
      = new
      /\ Forall (is_click_event (BasePage.init None 60000) "button" (1 # 4)) new
      /\ (exists a, last_call new None = Some (a, Some PlaywrightTimeout))
      /\ attempts new = 3%nat
      /\ sleeps new = 3%nat.
Proof.
  split; [lia|]. split; [reflexivity|].
  destruct (@safe_click_default_timeout Reference.runtime never_visible
              (BasePage.init None 60000) "button" 3 (1 # 4)
              (Some 30000%Z) empty_world)
    as [_ (new & Htr & _ & Hall & _ & _ & Hres)].
  exists new. split; [exact Htr|]. split; [exact Hall|].
  specialize (Hres ltac:(lia) eq_refl).
  change (fst (BasePage.safe_click (R := Reference.runtime) never_visible
                 (BasePage.init None 60000) "button" 3 (1 # 4)
                 (Some 30000%Z) empty_world))
    with (@Raise unit PlaywrightTimeout) in Hres.
  destruct Hres as (Hl & Hc & _). split; [exact Hl | exact (Hc eq_refl)].
Defined.

(** ** The login steps of [NavBarLinks] *)

Section Emits.
Context {R : Runtime}.
Variable E : env.

Lemma emits_ret (A : Type) (P : event -> Prop) (a : A) : emits P (ret a).
Proof. intros w. exists []. simpl. rewrite app_nil_r. auto. Qed.

Lemma emits_bind (A B : Type) (P : event -> Prop) (m : M A) (k : A -> M B) :
  emits P m -> (forall a, emits P (k a)) -> emits P (bindM m k).
Proof.
  intros Hm Hk w. unfold bindM.
  destruct (Hm w) as (new1 & Htr1 & Hall1).
  destruct (m w) as [[a|e] w1]; simpl in *.
  - destruct (Hk a w1) as (new2 & Htr2 & Hall2).
    exists (new1 ++ new2). rewrite Htr2, Htr1, app_assoc.
    split; auto. apply Forall_app; auto.
  - exists new1. auto.
Qed.

Lemma emits_perform (P : event -> Prop) (a : action) :
  (forall o, P (a, o)) -> emits P (perform E a).
Proof.
  intros HP w. exists [(a, outcome E (trace w) a)]. simpl. auto.
Qed.

Lemma emits_safe_click (P : event -> Prop) (self : BasePage.t)
      (selector : string) (retries : Z) (delay : Q) (timeout : option Z) :
  (forall ev, is_click_event self selector delay ev -> P ev) ->
  emits P (BasePage.safe_click E self selector retries delay timeout).
Proof.
  intros HP w.
  destruct (@safe_click_loop_events R E self selector delay
              (Z.to_nat retries) None w) as (new & Htr & _ & Hall & _).
  exists new. split; auto.
  eapply Forall_impl; [|exact Hall]. exact HP.
Qed.

End Emits.

Section Login.
Context {R : Runtime}.
Variable E : env.
Variable g : gmail.
Variable self : BasePage.t.

Lemma NavBarLinks_steps (email : text) (wait_for_dashboard : bool) (w : world) :
  DashboardPage.NavBarLinks E g self email wait_for_dashboard w
  = match submit_email E self email w with
    | (Ok _, w1) =>
        match perform E otp_wait w1 with
        | (Ok _, w2) => enter_otp E g self w2
        | (Raise e, w2) => (Raise e, w2)
        end
    | (Raise e, w1) => (Raise e, w1)
    end.
Proof.
  unfold DashboardPage.NavBarLinks, submit_email, enter_otp, bindM, otp_wait.
  destruct (perform E (WaitForSelector EMAIL_INPUT None 30000) w) as [[u|e] w1];
    [|reflexivity].
  destruct (BasePage.type_text E EMAIL_INPUT email w1) as [[u1|e] w2];
    [|reflexivity].
  destruct (perform E (WaitForSelector CONTINUE_BUTTON (Some "attached"%string) 30000) w2)
    as [[u2|e] w3]; [|reflexivity].
  destruct (BasePage.safe_click E self CONTINUE_BUTTON 3 (1 # 4) (Some 30000%Z) w3)
    as [[u3|e] w4]; reflexivity.
Qed.

Lemma submit_email_emits (email : text) :
  emits before_otp_wait (submit_email E self email).
Proof.
  assert (Hp : forall a, (forall o, before_otp_wait (a, o)) ->
                         emits before_otp_wait (perform E a))
    by (intros a; apply emits_perform).
  unfold submit_email.
  apply emits_bind; [apply Hp; intros o; cbv; auto | intros _].
  apply emits_bind; [|intros _].
  { unfold BasePage.type_text.
    apply emits_bind; [|intros _]; apply Hp; intros o; cbv; auto. }
  apply emits_bind; [apply Hp; intros o; cbv; auto | intros _].
  apply emits_safe_click.
  intros [[] o]; cbv [before_otp_wait is_click_event fst]; intuition.
Qed.

(** Past the OTP wait the method always stops with an exception and
    calls the browser no more. *)
Lemma enter_otp_raises (w : world) :
  exists e, enter_otp E g self w = (Raise e, w).
Proof.
  unfold enter_otp, bindM, lift, raise, ret.
  destruct (get_latest_email g "subject:code") as [[c|]|e]; eauto.
  destruct (truthy c); eauto.
Qed.

End Login.

Lemma before_otp_wait_counts (pre : list event) :
  Forall before_otp_wait pre -> reloads pre = 0%nat /\ otp_waits pre = 0%nat.
Proof.
  induction 1 as [|[a o] pre Ha _ [IHr IHo]]; [split; reflexivity|].
  destruct a; simpl in *; try contradiction; auto.
  destruct Ha as [-> | ->]; simpl; auto.
Qed.

Lemma reloads_app (a b : list event) :
  reloads (a ++ b) = (reloads a + reloads b)%nat.
Proof. induction a as [|[[] o] a IH]; simpl; auto. Qed.

Lemma otp_waits_app (a b : list event) :
  otp_waits (a ++ b) = (otp_waits a + otp_waits b)%nat.
Proof.
  induction a as [|[[] o] a IH]; simpl; auto.
  destruct (String.eqb selector OTP_INPUT); simpl; auto.
Qed.

Section LoginOutcome.
Context {R : Runtime}.
Variable E : env.
Variable g : gmail.
Variable self : BasePage.t.

Lemma keeps_file_bind (A B : Type) (m : M A) (k : A -> M B) :
  keeps_file m -> (forall a, keeps_file (k a)) -> keeps_file (bindM m k).
Proof.
  intros Hm Hk w. unfold bindM. specialize (Hm w).
  destruct (m w) as [[a|e] w1]; simpl in *; [|exact Hm].
  now rewrite Hk.
Qed.

Lemma keeps_file_perform (a : action) : keeps_file (perform E a).
Proof. intros w. reflexivity. Qed.

Lemma keeps_file_safe_click (selector : string) (retries : Z) (delay : Q)
      (timeout : option Z) :
  keeps_file (BasePage.safe_click E self selector retries delay timeout).
Proof.
  intros w.
  destruct (@safe_click_loop_events R E self selector delay
              (Z.to_nat retries) None w) as (new & _ & Hf & _).
  exact Hf.
Qed.

Lemma submit_email_keeps_file (email : text) :
  keeps_file (submit_email E self email).
Proof.
  unfold submit_email.
  apply keeps_file_bind; [apply keeps_file_perform | intros _].
  apply keeps_file_bind; [|intros _].
  { unfold BasePage.type_text.
    apply keeps_file_bind; [|intros _]; apply keeps_file_perform. }
  apply keeps_file_bind; [apply keeps_file_perform | intros _].
  apply keeps_file_safe_click.
Qed.

Lemma submit_email_all_ok (email : text) (w : world) :
  (forall tr a, outcome E tr a = None) ->
  submit_email E self email w
  = (Ok tt, World (trace w ++ firstn 6 (login_calls self email)) (auth_file w)).
Proof.
  intros Hall.
  unfold submit_email, BasePage.type_text, BasePage.safe_click, bindM, perform.
  rewrite Hall. simpl. rewrite Hall. simpl. rewrite Hall. simpl.
  rewrite Hall. simpl.
  unfold BasePage.click_attempt, BasePage.Hitclick, bindM, perform. simpl.
  rewrite Hall. simpl. rewrite Hall. simpl.
  unfold log. simpl. rewrite <- !app_assoc. reflexivity.
Qed.

End LoginOutcome.

Section LoginCourse.
Context {R : Runtime}.
Variable E : env.
Variable self : BasePage.t.

Lemma shows_failure_bind (A B : Type) (m : M A) (k : A -> M B) :
  shows_failure m -> (forall a, shows_failure (k a)) -> shows_failure (bindM m k).
Proof.
  intros Hm Hk w. unfold bindM.
  destruct (Hm w) as (new1 & Htr1 & Hres1).
  destruct (m w) as [[a|e] w1]; simpl in *.
  - destruct (Hk a w1) as (new2 & Htr2 & Hres2).
    exists (new1 ++ new2). rewrite Htr2, Htr1, app_assoc. split; [reflexivity|].
    destruct (fst (k a w1)) as [b|e]; [exact I|].
    destruct Hres2 as (a' & e0 & Hin). exists a', e0.
    apply in_or_app. now right.
  - exists new1. auto.
Qed.

Lemma shows_failure_perform (a : action) : shows_failure (perform E a).
Proof.
  intros w. exists [(a, outcome E (trace w) a)]. split; [reflexivity|].
  unfold perform. simpl.
  destruct (outcome E (trace w) a) as [e|]; simpl; [|exact I].
  exists a, e. now left.
Qed.

Lemma failed_attempt_In (selector : string) (e : exn) (evs : list event) :
  failed_attempt self selector e evs -> exists a, In (a, Some e) evs.
Proof.
  intros [-> | ->]; eexists; simpl; eauto.
Qed.

Lemma shows_failure_safe_click (selector : string) (retries : Z) (delay : Q)
      (timeout : option Z) :
  (0 < retries)%Z ->
  shows_failure (BasePage.safe_click E self selector retries delay timeout).
Proof.
  intros Hpos w. unfold BasePage.safe_click.
  destruct (@safe_click_loop_rounds R E self selector delay
              (Z.to_nat retries) None w) as (fails & final & Htr & Hall & Hend).
  exists (paused_rounds delay fails ++ final). split; [exact Htr|].
  destruct (fst (BasePage.safe_click_loop E self selector delay
                   (Z.to_nat retries) None w)) as [u|e]; [exact I|].
  destruct Hend as [(_ & Hlen & _)|[(_ & _ & Hf)|(_ & _ & e0 & evs & _ & _ & ->)]].
  - destruct fails as [|p fails]; [simpl in Hlen; lia|].
    inversion Hall as [|? ? [_ Hp] _]; subst.
    destruct (failed_attempt_In Hp) as [a Hin].
    exists a, (fst p). apply in_or_app. left.
    unfold paused_rounds. simpl. rewrite <- app_assoc.
    apply in_or_app. now left.
  - destruct (failed_attempt_In Hf) as [a Hin].
    exists a, e. apply in_or_app. now right.
  - exists (Sleep delay), e. apply in_or_app. right.
    apply in_or_app. right. now left.
Qed.

(** When the steps that submit the email raise, one of their calls has
    raised. *)
Lemma submit_email_shows_failure (email : text) :
  shows_failure (submit_email E self email).
Proof.
  unfold submit_email.
  apply shows_failure_bind; [apply shows_failure_perform | intros _].
  apply shows_failure_bind; [|intros _].
  { unfold BasePage.type_text.
    apply shows_failure_bind; [|intros _]; apply shows_failure_perform. }
  apply shows_failure_bind; [apply shows_failure_perform | intros _].
  apply shows_failure_safe_click. lia.
Qed.

(** When they return, their last two calls are the wait and the click on
    the continue button, both gone through. *)
Lemma submit_email_ends_with_click (email : text) (w : world) (u : unit) :
  fst (submit_email E self email w) = Ok u ->
  exists pre0,
    trace (snd (submit_email E self email w))
    = trace w ++ pre0 ++ good_attempt self CONTINUE_BUTTON.
Proof.
  unfold submit_email, bindM.
  destruct (shows_failure_perform (WaitForSelector EMAIL_INPUT None 30000) w)
    as (n1 & T1 & _).
  destruct (perform E (WaitForSelector EMAIL_INPUT None 30000) w)
    as [[u1|e] w1]; [|discriminate].
  assert (Htype : shows_failure (BasePage.type_text E EMAIL_INPUT email)).
  { unfold BasePage.type_text.
    apply shows_failure_bind; [|intros _]; apply shows_failure_perform. }
  destruct (Htype w1) as (n2 & T2 & _).
  destruct (BasePage.type_text E EMAIL_INPUT email w1) as [[u2|e] w2];
    [|discriminate].
  destruct (shows_failure_perform
              (WaitForSelector CONTINUE_BUTTON (Some "attached"%string) 30000) w2)
    as (n3 & T3 & _).
  destruct (perform E (WaitForSelector CONTINUE_BUTTON (Some "attached"%string)
                                       30000) w2)
    as [[u3|e] w3]; [|discriminate].
  simpl in T1, T2, T3. unfold BasePage.safe_click.
  destruct (@safe_click_loop_rounds R E self CONTINUE_BUTTON (1 # 4)
              (Z.to_nat 3) None w3) as (fails & final & Htr & _ & Hend).
  intros Hok. rewrite Hok in Hend. destruct Hend as [-> _].
  exists (n1 ++ n2 ++ n3 ++ paused_rounds (1 # 4) fails).
  rewrite Htr, T3, T2, T1. now rewrite <- !app_assoc.
Qed.

End LoginCourse.

(** C6, as stated, fails: the OTP input is missing at the first wait and
    would be found by a second one, yet [NavBarLinks] raises the timeout
    of the first wait, having reloaded nothing and waited once. *)
Lemma otp_timeout_not_retried :
  let res := DashboardPage.NavBarLinks (R := Reference.runtime) otp_input_late
               gmail_no_match (BasePage.init None 60000)
               (text_of_string "user@example.com") true empty_world in
  fst res = Raise PlaywrightTimeout
  /\ reloads (trace (snd res)) = 0%nat
  /\ otp_waits (trace (snd res)) = 1%nat
  /\ last (trace (snd res)) (PageReload, None) = (otp_wait, Some PlaywrightTimeout)
  /\ outcome otp_input_late (trace (snd res)) otp_wait = None.
Proof.
  vm_compute. repeat split; reflexivity.
Qed.

(** C6, amended.  [NavBarLinks] waits for the OTP input once, with a
    timeout of 120000 ms, right after the steps that submit the email have
    returned, that is, after the click on the continue button went
    through; it never reloads the page.  The wait is left out only when
    one of these steps raised: then a call that raised is in the trace
    and the exception ends the call.  When the wait raises, the exception
    ends the call at once: the failed wait is the last event of the trace.
    (Past the wait the call ends with an exception too, and makes no
    browser call.)  When every call goes through, the calls are the six
    that submit the email and the wait for the OTP input. *)
Theorem NavBarLinks_single_otp_wait
        (R : Runtime) (E : env) (g : gmail) (self : BasePage.t)
        (email : text) (wait_for_dashboard : bool) (w : world) :
  exists new,
    trace (snd (DashboardPage.NavBarLinks E g self email wait_for_dashboard w))
    = trace w ++ new
    /\ reloads new = 0%nat
    /\ (otp_waits new <= 1)%nat
    /\ (exists pre,
        Forall before_otp_wait pre
        /\ trace (snd (submit_email E self email w)) = trace w ++ pre
        /\ match fst (submit_email E self email w) with
           | Raise e =>
               new = pre
               /\ otp_waits new = 0%nat
               /\ (exists a e0, In (a, Some e0) pre)
               /\ fst (DashboardPage.NavBarLinks E g self email wait_for_dashboard w)
                  = Raise e
           | Ok _ =>
               new = pre ++ [(otp_wait, outcome E (trace w ++ pre) otp_wait)]
               /\ otp_waits new = 1%nat
               /\ (exists pre0, pre = pre0 ++ good_attempt self CONTINUE_BUTTON)
               /\ match outcome E (trace w ++ pre) otp_wait with
                  | Some e =>
                      fst (DashboardPage.NavBarLinks E g self email
                             wait_for_dashboard w) = Raise e
                  | None =>
                      exists e,
                      fst (DashboardPage.NavBarLinks E g self email
                             wait_for_dashboard w) = Raise e
                  end
           end)
    /\ ((forall tr a, outcome E tr a = None) -> new = login_calls self email).
Proof.
  rewrite NavBarLinks_steps.
  destruct (submit_email_emits E self email w) as (pre & Htr & Hall).
  destruct (before_otp_wait_counts Hall) as [Hr Ho].
  destruct (submit_email_shows_failure E self email w) as (pre' & Htr' & Hfail).
  assert (pre' = pre) as ->.
  { rewrite Htr in Htr'. now apply app_inv_head in Htr'. }
  clear Htr'.
  pose proof (@submit_email_ends_with_click R E self email w) as Hclick.
  pose proof (@submit_email_all_ok R E self email w) as Hok.
  destruct (submit_email E self email w) as [[u|e] w1];
    simpl in Htr, Hfail, Hclick |- *.
  - destruct (Hclick u eq_refl) as (pre0 & Hpre0).
    rewrite Htr in Hpre0. apply app_inv_head in Hpre0.
    unfold perform. rewrite Htr.
    exists (pre ++ [(otp_wait, outcome E (trace w ++ pre) otp_wait)]).
    assert (Hcount :
              reloads (pre ++ [(otp_wait, outcome E (trace w ++ pre) otp_wait)]) = 0%nat
              /\ otp_waits (pre ++ [(otp_wait, outcome E (trace w ++ pre) otp_wait)])
                 = 1%nat).
    { rewrite reloads_app, otp_waits_app, Hr, Ho. simpl. split; auto. }
    destruct Hcount as [Hr' Ho'].
    assert (Hfull : (forall tr a, outcome E tr a = None) ->
                    pre ++ [(otp_wait, outcome E (trace w ++ pre) otp_wait)]
                    = login_calls self email).
    { intros Hnone. specialize (Hok Hnone). injection Hok as _ Hw1.
      rewrite Hw1 in Htr. simpl in Htr. apply app_inv_head in Htr.
      rewrite Hnone, <- Htr. reflexivity. }
    destruct (outcome E (trace w ++ pre) otp_wait) as [e|] eqn:Hout; simpl.
    + rewrite Htr, app_assoc.
      split; [reflexivity|]. split; [exact Hr'|]. split; [lia|].
      split; [|exact Hfull].
      exists pre. split; [exact Hall|]. split; [reflexivity|].
      split; [now rewrite Hout|]. split; [exact Ho'|].
      split; [eauto | now rewrite Hout].
    + destruct (enter_otp_raises E g self (log otp_wait None w1)) as [e He].
      rewrite He. simpl. rewrite Htr, app_assoc.
      split; [reflexivity|]. split; [exact Hr'|]. split; [lia|].
      split; [|exact Hfull].
      exists pre. split; [exact Hall|]. split; [reflexivity|].
      split; [now rewrite Hout|]. split; [exact Ho'|].
      split; [eauto | rewrite Hout; eauto].
  - exists pre. split; [exact Htr|]. split; [exact Hr|]. split; [lia|].
    split.
    + exists pre. split; [exact Hall|]. split; [exact Htr|].
      split; [reflexivity|]. split; [exact Ho|]. split; [exact Hfail | reflexivity].
    + intros Hnone. specialize (Hok Hnone). discriminate Hok.
Qed.

Lemma NavBarLinks_single_otp_wait_witness :
  exists new,
    trace (snd (DashboardPage.NavBarLinks (R := Reference.runtime) site_all_ok
                  (gmail_with otp_mail) page_without_base
                  (text_of_string "user@example.com") true empty_world))
    = new
    /\ otp_waits new = 1%nat
    /\ new = login_calls page_without_base (text_of_string "user@example.com").
Proof.
  destruct (@NavBarLinks_single_otp_wait Reference.runtime site_all_ok
              (gmail_with otp_mail) page_without_base
              (text_of_string "user@example.com") true empty_world)
    as (new & Htr & _ & _ & _ & Hcalls).
  exists new. split; [exact Htr|].
  rewrite (Hcalls (fun _ _ => eq_refl)). split; reflexivity.
Defined.

(** ** The auth state fixtures *)

Section Bootstrap.
Context {R : Runtime}.
Variable E : env.

Lemma create_auth_state_eq (cfg : pytestconfig) (w : world) :
  create_auth_state E cfg w
  = if exists_ w AUTH_STATE_FILE && negb (opt_recreate_auth cfg)
    then (Ok AUTH_STATE_FILE, w)
    else
      match perform E (Launch (chosen_browser cfg)) w with
      | (Ok _, w0) =>
          match after_launch E w0 with
          | (Ok _, w1) => save_state E w1
          | (Raise e, w1) => (Raise e, w1)
          end
      | (Raise e, w0) => (Raise e, w0)
      end.
Proof.
  unfold create_auth_state. fold (chosen_browser cfg).
  destruct (exists_ w AUTH_STATE_FILE && negb (opt_recreate_auth cfg));
    [reflexivity|].
  unfold after_launch, save_state, bindM.
  destruct (perform E (Launch (chosen_browser cfg)) w) as [[u|e] w0];
    [|reflexivity].
  destruct (perform E (NewContext None) w0) as [[u0|e] w1]; [|reflexivity].
  destruct (perform E NewPage w1) as [[u1|e] w2]; [|reflexivity].
  destruct (perform E AddInitScript w2) as [[u2|e] w3]; [|reflexivity].
  destruct (perform E (Goto "https://dmfluxury.com") w3) as [[u3|e] w4];
    [|reflexivity].
  destruct (sleep 150 w4) as [[u4|e] w5]; reflexivity.
Qed.

Lemma steps_bind (A B : Type) (P : event -> Prop) (m : M A) (k : A -> M B) :
  steps P m -> (forall a, steps P (k a)) -> steps P (bindM m k).
Proof.
  intros Hm Hk w. unfold bindM.
  destruct (Hm w) as (new1 & Htr1 & Hf1 & Hall1 & Hres1).
  destruct (m w) as [[a|e] w1]; simpl in *.
  - destruct (Hk a w1) as (new2 & Htr2 & Hf2 & Hall2 & Hres2).
    exists (new1 ++ new2). rewrite Htr2, Htr1, Hf2, Hf1, app_assoc.
    repeat split; auto; [apply Forall_app; auto|].
    destruct (fst (k a w1)) as [b|e].
    + apply Forall_app; auto.
    + destruct Hres2 as (a' & pre & ->).
      exists a', (new1 ++ pre). now rewrite app_assoc.
  - exists new1. auto.
Qed.

Lemma steps_perform (P : event -> Prop) (a : action) :
  (forall o, P (a, o)) -> steps P (perform E a).
Proof.
  intros HP w. exists [(a, outcome E (trace w) a)]. unfold perform. simpl.
  repeat split; auto.
  destruct (outcome E (trace w) a) as [e|]; simpl.
  - exists a, []. reflexivity.
  - repeat constructor.
Qed.

Lemma steps_sleep (P : event -> Prop) (seconds : Q) :
  (forall o, P (Sleep seconds, o)) -> steps P (sleep seconds).
Proof.
  intros HP w. exists [(Sleep seconds, to_outcome (time_sleep seconds))].
  unfold sleep. simpl. repeat split; auto.
  destruct (time_sleep seconds) as [u|e]; simpl.
  - repeat constructor.
  - exists (Sleep seconds), []. reflexivity.
Qed.

Lemma after_launch_steps : steps after_launch_event (after_launch E).
Proof.
  unfold after_launch.
  repeat (apply steps_bind; [apply steps_perform; intros o; exact I | intros _]).
  apply steps_sleep. intros o. exact I.
Qed.

(** What [save_state] does from a world [w1]. *)
Lemma save_state_cases (w1 : world) :
  let o := outcome E (trace w1) (StorageState AUTH_STATE_FILE) in
  let f := match exported E (trace w1) with
           | Some c => Some c
           | None => auth_file w1
           end in
  exists rest,
    trace (snd (save_state E w1))
    = trace w1 ++ (StorageState AUTH_STATE_FILE, o) :: rest
    /\ auth_file (snd (save_state E w1)) = f
    /\ Forall (fun ev => fst ev = ContextClose) rest
    /\ match fst (save_state E w1) with
       | Ok path => path = AUTH_STATE_FILE /\ f <> None
       | Raise e =>
           (o = Some e /\ rest = [])
           \/ (o = None /\ rest = [(ContextClose, Some e)])
           \/ (o = None /\ rest = [(ContextClose, None)] /\ f = None
               /\ e = RuntimeError "Failed to create auth storage state.")
       end.
Proof.
  intros o f. unfold save_state, bindM, storage_state, perform, ret.
  fold o. fold f. simpl.
  destruct o as [e|] eqn:Ho; simpl.
  - exists []. repeat split; auto.
  - set (tr1 := trace w1 ++ [(StorageState AUTH_STATE_FILE, None)]).
    destruct (outcome E tr1 ContextClose) as [e|] eqn:Hc; simpl.
    + exists [(ContextClose, Some e)]. unfold log, tr1. simpl.
      rewrite <- app_assoc. simpl. repeat split; auto.
    + unfold exists_, read_file, log. simpl.
      destruct f as [c|] eqn:Hf; simpl.
      * exists [(ContextClose, None)]. unfold tr1.
        rewrite <- app_assoc. simpl. repeat split; auto. discriminate.
      * exists [(ContextClose, None)]. unfold tr1.
        rewrite <- app_assoc. simpl. repeat split; auto.
        right. right. auto.
Qed.

End Bootstrap.

Lemma after_launch_counts (pre : list event) :
  Forall after_launch_event pre ->
  launches pre = 0%nat /\ selector_waits pre = 0%nat /\ Forall before_export pre.
Proof.
  induction 1 as [|[a o] pre Ha _ (IHl & IHs & IHb)]; [repeat split; constructor|].
  destruct a; simpl in *; try contradiction; repeat split; auto;
    constructor; auto; exact Ha.
Qed.

Lemma close_counts (rest : list event) :
  Forall (fun ev => fst ev = ContextClose) rest ->
  launches rest = 0%nat /\ selector_waits rest = 0%nat.
Proof.
  induction 1 as [|[a o] rest Ha _ [IHl IHs]]; [split; reflexivity|].
  simpl in Ha. subst a. simpl. auto.
Qed.

Lemma launches_app (a b : list event) :
  launches (a ++ b) = (launches a + launches b)%nat.
Proof. induction a as [|[[] o] a IH]; simpl; auto. Qed.

Lemma selector_waits_app (a b : list event) :
  selector_waits (a ++ b) = (selector_waits a + selector_waits b)%nat.
Proof. induction a as [|[[] o] a IH]; simpl; auto. Qed.

Section BootstrapShape.
Context {R : Runtime}.
Variable E : env.
Variable cfg : pytestconfig.
Variable w : world.

(** The two courses of a bootstrap: it stops before the export and the
    file is as before, or every earlier call went through, the export is
    called and the file is what the export leaves. *)
Lemma bootstrap_shape :
  exists_ w AUTH_STATE_FILE && negb (opt_recreate_auth cfg) = false ->
  exists pre,
    Forall after_launch_event pre
    /\ ((trace (snd (create_auth_state E cfg w))
         = trace w ++ launch_event E cfg w :: pre
         /\ auth_file (snd (create_auth_state E cfg w)) = auth_file w
         /\ exists a e pre0,
             launch_event E cfg w :: pre = pre0 ++ [(a, Some e)]
             /\ fst (create_auth_state E cfg w) = Raise e)
        \/ (Forall (fun ev => snd ev = None) (launch_event E cfg w :: pre)
            /\ exists rest,
                trace (snd (create_auth_state E cfg w))
                = trace w ++ launch_event E cfg w :: pre
                  ++ (StorageState AUTH_STATE_FILE,
                      outcome E (trace w ++ launch_event E cfg w :: pre)
                              (StorageState AUTH_STATE_FILE)) :: rest
                /\ Forall (fun ev => fst ev = ContextClose) rest
                /\ auth_file (snd (create_auth_state E cfg w))
                   = file_after_export E (trace w ++ launch_event E cfg w :: pre)
                                       (auth_file w)
                /\ match fst (create_auth_state E cfg w) with
                   | Ok path =>
                       path = AUTH_STATE_FILE
                       /\ file_after_export E
                            (trace w ++ launch_event E cfg w :: pre)
                            (auth_file w) <> None
                   | Raise e =>
                       rest = [] \/ rest = [(ContextClose, Some e)]
                       \/ (rest = [(ContextClose, None)]
                           /\ file_after_export E
                                (trace w ++ launch_event E cfg w :: pre)
                                (auth_file w) = None
                           /\ e = RuntimeError "Failed to create auth storage state.")
                   end)).
Proof.
  intros Hbranch. rewrite create_auth_state_eq, Hbranch.
  unfold perform, launch_event.
  destruct (outcome E (trace w) (Launch (chosen_browser cfg))) as [e|] eqn:Hl;
    simpl.
  - exists []. split; [constructor|]. left.
    split; [reflexivity|]. split; [reflexivity|].
    exists (Launch (chosen_browser cfg)), e, []. auto.
  - set (w0 := log (Launch (chosen_browser cfg)) None w).
    set (launch_ev := (Launch (chosen_browser cfg), @None exn)).
    destruct (after_launch_steps E w0) as (pre & Htr & Hf & Hall & Hres).
    assert (Htr0 : trace w0 ++ pre = trace w ++ launch_ev :: pre).
    { unfold w0, log. simpl. now rewrite <- app_assoc. }
    exists pre. split; [exact Hall|].
    destruct (after_launch E w0) as [[u|e] w1]; simpl in *.
    + right. split.
      { constructor; [reflexivity | exact Hres]. }
      destruct (save_state_cases E w1) as (rest & Htr1 & Hf1 & Hclose & Hr1).
      exists rest. rewrite Htr1, Hf1, Htr, Hf, Htr0.
      unfold file_after_export. rewrite <- app_assoc. simpl.
      split; [reflexivity|]. split; [exact Hclose|]. split; [reflexivity|].
      rewrite Htr, Htr0, Hf in Hr1.
      destruct (fst (save_state E w1)); [exact Hr1|].
      destruct Hr1 as [[_ Hr1]|[[_ Hr1]|(_ & Hr1 & Hr2 & Hr3)]]; auto.
    + left. rewrite Htr, Hf, Htr0.
      split; [reflexivity|]. split; [reflexivity|].
      destruct Hres as (a & pre0 & ->).
      exists a, e, (launch_ev :: pre0). auto.
Qed.

End BootstrapShape.

Lemma bootstrap_branch (cfg : pytestconfig) (w : world) :
  auth_file w = None \/ opt_recreate_auth cfg = true ->
  exists_ w AUTH_STATE_FILE && negb (opt_recreate_auth cfg) = false.
Proof.
  unfold exists_, read_file. simpl.
  intros [-> | ->]; simpl; [reflexivity | apply andb_false_r].
Qed.

Lemma reuse_branch (cfg : pytestconfig) (w : world) :
  auth_file w <> None -> opt_recreate_auth cfg = false ->
  exists_ w AUTH_STATE_FILE && negb (opt_recreate_auth cfg) = true.
Proof.
  unfold exists_, read_file. simpl. intros Hf ->.
  destruct (auth_file w); [reflexivity | congruence].
Qed.

(** C2, as stated, fails.  Nobody logs in and the dashboard header would
    never be found, yet [create_auth_state] returns and the auth file holds
    the exported state; and when closing the context fails after the
    export, the attempt fails with the state already written. *)
Lemma state_persisted_without_dashboard :
  let res := create_auth_state (R := Reference.runtime) site_never_logged_in
               cfg_default empty_world in
  let res' := create_auth_state (R := Reference.runtime) site_close_fails
                cfg_default empty_world in
  fst res = Ok AUTH_STATE_FILE
  /\ auth_file (snd res) = Some (Decodable [])
  /\ selector_waits (trace (snd res)) = 0%nat
  /\ (forall tr, outcome site_never_logged_in tr
                         (WaitForSelector DASHBOARD_HEADER None 60000)
                 = Some PlaywrightTimeout)
  /\ fst res' = Raise PlaywrightError
  /\ auth_file (snd res') = Some (Decodable []).
Proof.
  vm_compute. repeat split; reflexivity.
Qed.

(** C2, amended.  A bootstrap of [create_auth_state] (no auth file, or
    [--recreate-auth]) never waits for a dashboard landmark.  If a call
    before the export raises (launch, new context, new page, init script,
    navigation, pause), that exception ends the attempt and the auth file
    is left as it was.  If they all go through, the storage state is
    exported and the auth file holds what the export left there. *)
Theorem create_auth_state_persists_unchecked
        (R : Runtime) (E : env) (cfg : pytestconfig) (w : world) :
  auth_file w = None \/ opt_recreate_auth cfg = true ->
  exists new,
    trace (snd (create_auth_state E cfg w)) = trace w ++ new
    /\ selector_waits new = 0%nat
    /\ exists pre,
        Forall before_export pre
        /\ ((new = pre
             /\ auth_file (snd (create_auth_state E cfg w)) = auth_file w
             /\ exists a e pre0,
                 pre = pre0 ++ [(a, Some e)]
                 /\ fst (create_auth_state E cfg w) = Raise e)
            \/ (Forall (fun ev => snd ev = None) pre
                /\ (exists rest,
                       new = pre ++ (StorageState AUTH_STATE_FILE,
                                     outcome E (trace w ++ pre)
                                             (StorageState AUTH_STATE_FILE)) :: rest
                       /\ Forall (fun ev => fst ev = ContextClose) rest)
                /\ auth_file (snd (create_auth_state E cfg w))
                   = file_after_export E (trace w ++ pre) (auth_file w))).
Proof.
  intros Hb. apply bootstrap_branch in Hb.
  destruct (bootstrap_shape E cfg w Hb) as (pre & Hall & Hshape).
  destruct (after_launch_counts Hall) as (Hl & Hs & Hbe).
  assert (Hbe' : Forall before_export (launch_event E cfg w :: pre))
    by (constructor; [exact I | exact Hbe]).
  destruct Hshape as [(Htr & Hf & Hfail)|(Hok & rest & Htr & Hclose & Hf & _)].
  - exists (launch_event E cfg w :: pre). split; [exact Htr|].
    split; [simpl; exact Hs|].
    exists (launch_event E cfg w :: pre). split; [exact Hbe'|]. left. auto.
  - destruct (close_counts Hclose) as [_ Hcs].
    exists (launch_event E cfg w :: pre
            ++ (StorageState AUTH_STATE_FILE,
                outcome E (trace w ++ launch_event E cfg w :: pre)
                        (StorageState AUTH_STATE_FILE)) :: rest).
    split; [exact Htr|].
    split.
    { simpl. rewrite selector_waits_app, Hs. simpl. exact Hcs. }
    exists (launch_event E cfg w :: pre). split; [exact Hbe'|]. right.
    split; [exact Hok|]. split; [|exact Hf].
    exists rest. split; [reflexivity | exact Hclose].
Qed.

Lemma create_auth_state_persists_unchecked_witness :
  (auth_file empty_world = None \/ opt_recreate_auth cfg_default = true)
  /\ exists new,
      trace (snd (create_auth_state (R := Reference.runtime) site_unreachable
                    cfg_default empty_world)) = new
      /\ selector_waits new = 0%nat
      /\ auth_file (snd (create_auth_state (R := Reference.runtime) site_unreachable
                           cfg_default empty_world)) = None.
Proof.
  split; [left; reflexivity|].
  destruct (@create_auth_state_persists_unchecked Reference.runtime
              site_unreachable cfg_default empty_world (or_introl eq_refl))
    as (new & Htr & Hs & _).
  exists new. split; [exact Htr|]. split; [exact Hs|].
  vm_compute. reflexivity.
Defined.

(** One leaf of the case analysis of a bootstrap: the events are read off
    the final trace, and every part of the description is computed. *)
Ltac bootstrap_stops :=
  eexists;
  split; [rewrite <- ?app_assoc; simpl; reflexivity|];
  simpl;
  repeat match goal with
         | |- _ /\ _ => split
         | |- Forall _ _ => repeat constructor
         end;
  simpl; rewrite <- ?app_assoc in *; simpl in *; unfold event in *;
  repeat match goal with
         | H : ?l = _ |- context [?l] => rewrite H
         end;
  solve [reflexivity | congruence | auto].

(** C3.  With [--recreate-auth] off and an auth file present,
    [create_auth_state] returns the path of the file and does nothing else:
    no browser is launched and the file is untouched; asking twice changes
    nothing.  With [--recreate-auth] on, it runs one bootstrap, whether a
    file exists or not: it launches a browser exactly once, as its first
    call, and makes the calls of the bootstrap in their order (launch, new
    context, new page, init script, navigation, the pause of 150 s, the
    export of the storage state, the closing of the context), each with
    the outcome that the browser gave, up to the first one that raises,
    whose exception it raises.  The auth file is as before when the export
    was not reached, and what the export left otherwise.  When all eight
    calls went through, the path is returned if the file exists, and
    [RuntimeError] is raised if not. *)
Theorem create_auth_state_reuse_or_bootstrap
        (R : Runtime) (E : env) (cfg : pytestconfig) (w : world) :
  (auth_file w <> None -> opt_recreate_auth cfg = false ->
   create_auth_state E cfg w = (Ok AUTH_STATE_FILE, w)
   /\ forall E',
       (_ <-- create_auth_state E cfg ;;; create_auth_state E' cfg) w
       = (Ok AUTH_STATE_FILE, w))
  /\ (opt_recreate_auth cfg = true ->
      exists new,
        trace (snd (create_auth_state E cfg w)) = trace w ++ new
        /\ launches new = 1%nat
        /\ hd_error (map fst new) = Some (Launch (chosen_browser cfg))
        /\ map fst new = firstn (List.length new) (bootstrap_calls cfg)
        /\ replayed E (trace w) new
        /\ Forall (fun ev => snd ev = None) (removelast new)
        /\ auth_file (snd (create_auth_state E cfg w))
           = (if (List.length new <=? 6)%nat then auth_file w
              else file_after_export E (trace w ++ firstn 6 new) (auth_file w))
        /\ match snd (last new (ContextClose, None)) with
           | Some e => fst (create_auth_state E cfg w) = Raise e
           | None =>
               List.length new = 8%nat
               /\ fst (create_auth_state E cfg w)
                  = match auth_file (snd (create_auth_state E cfg w)) with
                    | Some _ => Ok AUTH_STATE_FILE
                    | None =>
                        Raise (RuntimeError "Failed to create auth storage state.")
                    end
           end).
Proof.
  split.
  - intros Hf Hr.
    assert (Hone : forall E0, create_auth_state E0 cfg w = (Ok AUTH_STATE_FILE, w)).
    { intros E0. rewrite create_auth_state_eq.
      now rewrite (reuse_branch cfg w Hf Hr). }
    split; [apply Hone|].
    intros E'. unfold bindM. rewrite Hone. apply Hone.
  - intros Hr. rewrite create_auth_state_eq.
    rewrite (bootstrap_branch cfg w (or_intror Hr)).
    unfold after_launch, save_state, storage_state, bindM, perform, sleep, ret,
      log, exists_, read_file, file_after_export, bootstrap_calls.
    simpl.
    destruct (outcome E (trace w) (Launch (chosen_browser cfg))) as [e|] eqn:H0;
      simpl; [bootstrap_stops|].
    destruct (outcome E (trace w ++ [(Launch (chosen_browser cfg), None)])
                      (NewContext None)) as [e|] eqn:H1;
      simpl; [bootstrap_stops|].
    match goal with
    | |- context [outcome E ?tr NewPage] =>
        destruct (outcome E tr NewPage) as [e|] eqn:H2
    end; simpl; [bootstrap_stops|].
    match goal with
    | |- context [outcome E ?tr AddInitScript] =>
        destruct (outcome E tr AddInitScript) as [e|] eqn:H3
    end; simpl; [bootstrap_stops|].
    match goal with
    | |- context [outcome E ?tr (Goto ?u)] =>
        destruct (outcome E tr (Goto u)) as [e|] eqn:H4
    end; simpl; [bootstrap_stops|].
    destruct (time_sleep 150) as [[]|e] eqn:H5; simpl; [|bootstrap_stops].
    match goal with
    | |- context [outcome E ?tr (StorageState ?p)] =>
        destruct (outcome E tr (StorageState p)) as [e|] eqn:H6
    end; simpl; [bootstrap_stops|].
    match goal with
    | |- context [outcome E ?tr ContextClose] =>
        destruct (outcome E tr ContextClose) as [e|] eqn:H7
    end; simpl; [bootstrap_stops|].
    match goal with
    | |- context [exported E ?tr] => destruct (exported E tr) as [c|] eqn:H8
    end; simpl; [bootstrap_stops|].
    destruct (auth_file w) as [c|] eqn:H9; simpl; bootstrap_stops.
Qed.

Lemma create_auth_state_reuse_or_bootstrap_witness :
  (auth_file world_with_state <> None /\ opt_recreate_auth cfg_default = false)
  /\ create_auth_state (R := Reference.runtime) site_all_ok cfg_default world_with_state
     = (Ok AUTH_STATE_FILE, world_with_state)
  /\ opt_recreate_auth cfg_recreate = true
  /\ exists new,
      trace (snd (create_auth_state (R := Reference.runtime) site_all_ok
                    cfg_recreate world_with_state)) = new
      /\ launches new = 1%nat.
Proof.
  assert (Hf : auth_file world_with_state <> None) by discriminate.
  split; [split; [exact Hf | reflexivity]|].
  split.
  - exact (proj1 (proj1 (@create_auth_state_reuse_or_bootstrap Reference.runtime
                           site_all_ok cfg_default world_with_state)
                        Hf eq_refl)).
  - split; [reflexivity|].
    destruct (proj2 (@create_auth_state_reuse_or_bootstrap Reference.runtime
                       site_all_ok cfg_recreate world_with_state) eq_refl)
      as (new & Htr & Hl & _).
    exists new. split; [exact Htr | exact Hl].
Defined.

Lemma app_two_last (A : Type) (l : list A) (x y : A) :
  l ++ [x; y] = (l ++ [x]) ++ [y].
Proof. now rewrite <- app_assoc. Qed.

(** C8.  When [create_auth_state] returns, it returns the path
    [results/auth.json] and the auth file exists; when every call of the
    bootstrap went through, the closing of the context included, and no
    file is there, it raises [RuntimeError]. *)
Theorem create_auth_state_returns_existing_file
        (R : Runtime) (E : env) (cfg : pytestconfig) (w : world) :
  (forall path w',
      create_auth_state E cfg w = (Ok path, w') ->
      path = AUTH_STATE_FILE /\ exists_ w' path = true /\ auth_file w' <> None)
  /\ (forall tr,
         trace (snd (create_auth_state E cfg w)) = tr ++ [(ContextClose, None)] ->
         auth_file (snd (create_auth_state E cfg w)) = None ->
         fst (create_auth_state E cfg w)
         = Raise (RuntimeError "Failed to create auth storage state.")).
Proof.
  destruct (exists_ w AUTH_STATE_FILE && negb (opt_recreate_auth cfg)) eqn:Hbranch.
  - assert (Hex : exists_ w AUTH_STATE_FILE = true)
      by (apply andb_prop in Hbranch; tauto).
    rewrite create_auth_state_eq, Hbranch. split.
    + intros path w' [= <- <-]. split; [reflexivity|]. split; [exact Hex|].
      unfold exists_, read_file in Hex. simpl in Hex.
      destruct (auth_file w); [discriminate | discriminate Hex].
    + simpl. intros tr _ Hnone.
      unfold exists_, read_file in Hex. simpl in Hex.
      rewrite Hnone in Hex. discriminate.
  - destruct (bootstrap_shape E cfg w Hbranch) as (pre & Hall & Hshape).
    destruct Hshape as [(Htr & Hf & a & e & pre0 & Hlast & Hres)
                       |(Hok & rest & Htr & Hclose & Hf & Hres)].
    + split.
      * intros path w' Heq. rewrite Heq in Hres. discriminate.
      * intros tr Htr' _. rewrite Htr, Hlast, app_assoc in Htr'.
        apply app_inj_tail in Htr' as [_ Hbad]. discriminate.
    + split.
      * intros path w' Heq. rewrite Heq in Hres, Hf. simpl in *.
        destruct Hres as [-> Hsome]. split; [reflexivity|].
        rewrite <- Hf in Hsome. split; [|exact Hsome].
        unfold exists_, read_file. simpl.
        destruct (auth_file w'); [reflexivity | congruence].
      * intros tr Htr' Hnone. rewrite Hf in Hnone.
        destruct (fst (create_auth_state E cfg w)) as [path|e].
        -- destruct Hres as [_ Hsome]. congruence.
        -- destruct Hres as [->|[->|(-> & _ & ->)]]; [| |reflexivity].
           ++ rewrite Htr, app_comm_cons, app_assoc in Htr'.
              apply app_inj_tail in Htr' as [_ Hbad]. discriminate.
           ++ rewrite Htr, app_two_last, app_comm_cons, app_assoc in Htr'.
              apply app_inj_tail in Htr' as [_ Hbad]. discriminate.
Qed.

Lemma create_auth_state_returns_existing_file_witness :
  create_auth_state (R := Reference.runtime) site_all_ok cfg_default empty_world
  = (Ok AUTH_STATE_FILE,
     snd (create_auth_state (R := Reference.runtime) site_all_ok cfg_default
            empty_world))
  /\ auth_file (snd (create_auth_state (R := Reference.runtime) site_all_ok
                       cfg_default empty_world)) <> None
  /\ fst (create_auth_state (R := Reference.runtime) site_writes_nothing
            cfg_default empty_world)
     = Raise (RuntimeError "Failed to create auth storage state.").
Proof.
  assert (H : create_auth_state (R := Reference.runtime) site_all_ok cfg_default
                empty_world
              = (Ok AUTH_STATE_FILE,
                 snd (create_auth_state (R := Reference.runtime) site_all_ok
                        cfg_default empty_world)))
    by (vm_compute; reflexivity).
  split; [exact H|]. split.
  - exact (proj2 (proj2 (proj1 (@create_auth_state_returns_existing_file
                                  Reference.runtime site_all_ok cfg_default
                                  empty_world) _ _ H))).
  - apply (proj2 (@create_auth_state_returns_existing_file
                    Reference.runtime site_writes_nothing cfg_default empty_world)
                 (removelast (trace (snd (create_auth_state
                                            (R := Reference.runtime)
                                            site_writes_nothing cfg_default
                                            empty_world))))).
    + vm_compute. reflexivity.
    + vm_compute. reflexivity.
Defined.

(** C7, as stated, fails.  An auth file that cannot be decoded is returned
    like any other: no browser is launched, whereas an absent file starts a
    bootstrap; the page request then fails when the context is created, and
    nothing else is tried. *)
Lemma corrupt_state_not_treated_as_absent :
  create_auth_state (R := Reference.runtime) site_all_ok cfg_default
    world_with_corrupt_state
  = (Ok AUTH_STATE_FILE, world_with_corrupt_state)
  /\ launches (trace (snd (create_auth_state (R := Reference.runtime) site_all_ok
                             cfg_default empty_world))) = 1%nat
  /\ request_auth_page (R := Reference.runtime) site_all_ok cfg_default
       world_with_corrupt_state
     = (Raise ValueError,
        World [(NewContext (Some AUTH_STATE_FILE), Some ValueError)]
              (Some Undecodable)).
Proof.
  vm_compute. repeat split; reflexivity.
Qed.

(** C7, amended.  The factory checks only that the auth file exists.  With
    a file present and [--recreate-auth] off, [create_auth_state] returns
    its path without reading it and starts no bootstrap, whatever the file
    holds.  When the content cannot be decoded, creating the context in
    [auth_page] raises, so no context is built from it, and the request
    ends there: the file is as it was and no bootstrap follows. *)
Theorem auth_file_checked_for_existence_only
        (R : Runtime) (E : env) (cfg : pytestconfig) (w : world)
        (c : file_content) :
  auth_file w = Some c ->
  opt_recreate_auth cfg = false ->
  create_auth_state E cfg w = (Ok AUTH_STATE_FILE, w)
  /\ (c = Undecodable ->
      request_auth_page E cfg w
      = (Raise ValueError,
         log (NewContext (Some AUTH_STATE_FILE)) (Some ValueError) w)).
Proof.
  intros Hf Hr.
  assert (Hone : create_auth_state E cfg w = (Ok AUTH_STATE_FILE, w)).
  { rewrite create_auth_state_eq, reuse_branch; auto. congruence. }
  split; [exact Hone|].
  intros ->. unfold request_auth_page, bindM. rewrite Hone.
  unfold auth_page, bindM, new_context_from, read_file. simpl.
  now rewrite Hf.
Qed.

Lemma auth_file_checked_for_existence_only_witness :
  (auth_file world_with_corrupt_state = Some Undecodable
   /\ opt_recreate_auth cfg_default = false)
  /\ create_auth_state (R := Reference.runtime) site_all_ok cfg_default
       world_with_corrupt_state
     = (Ok AUTH_STATE_FILE, world_with_corrupt_state)
  /\ fst (request_auth_page (R := Reference.runtime) site_all_ok cfg_default
            world_with_corrupt_state) = Raise ValueError.
Proof.
  split; [split; reflexivity|].
  pose (H := @auth_file_checked_for_existence_only Reference.runtime site_all_ok
               cfg_default world_with_corrupt_state Undecodable eq_refl eq_refl).
  split; [exact (proj1 H)|].
  exact (f_equal fst (proj2 H eq_refl)).
Defined.


(** * Further properties of the code *)

(** ** utils/google_utils.py *)

Section MoreOtp.
Context {R : Runtime}.

Lemma search_otp_leftmost (s : text) :
  forall prev code,
    search_otp prev s = Some code ->
    exists p,
      match_otp_at (char_before prev s p) (skipn p s) = Some code
      /\ forall q, (q < p)%nat ->
                   match_otp_at (char_before prev s q) (skipn q s) = None.
Proof.
  induction s as [|c s IH]; intros prev code; simpl.
  - destruct (match_otp_at prev []) eqn:Hm; [|discriminate].
    intros [= <-]. exists 0%nat. split; [exact Hm | intros q Hq; lia].
  - destruct (match_otp_at prev (c :: s)) eqn:Hm.
    + intros [= <-]. exists 0%nat. split; [exact Hm | intros q Hq; lia].
    + intros Hs. destruct (IH _ _ Hs) as (p & Hp & Hbefore).
      exists (S p). split.
      * simpl. destruct p; exact Hp.
      * intros [|q] Hq; [exact Hm|].
        specialize (Hbefore q ltac:(lia)). simpl. destruct q; exact Hbefore.
Qed.

(** X1.  The code that [extract_otp] returns is the first one of the
    text: no six-digit run between word boundaries starts before it. *)
Theorem extract_otp_leftmost (msg : message) (txt code : text) :
  extract_text_from_message msg = Ok txt ->
  extract_otp msg = Ok (Some code) ->
  exists p,
    six_digit_match txt p code
    /\ forall q, (q < p)%nat ->
                 ~ (digit_run txt q 6
                    /\ (forall r, q = S r -> word_at txt r = false)
                    /\ word_at txt (q + 6) = false).
Proof.
  intros Htxt. unfold extract_otp. rewrite Htxt. simpl. intros [= Hs].
  apply search_otp_leftmost in Hs as (p & Hp & Hbefore).
  exists p. split; [now apply match_otp_at_sound|].
  intros q Hq (Hrun & Hl & Hr).
  specialize (Hbefore q Hq).
  rewrite match_otp_at_complete in Hbefore by assumption. discriminate.
Qed.

(** X2.  A code returned by [get_latest_email] comes from the first
    message that the listing returns: the service was set up, that message
    was fetched, and the code is a six-digit match of its extracted text,
    so it has six characters. *)
Theorem get_latest_email_code_origin (g : gmail) (query : string) (code : text) :
  get_latest_email g query = Ok (Some code) ->
  get_gmail_service g = Ok tt
  /\ exists msg_id ids msg txt p,
      messages_list g query = Ok (msg_id :: ids)
      /\ messages_get g msg_id = Ok msg
      /\ extract_text_from_message msg = Ok txt
      /\ six_digit_match txt p code
      /\ List.length code = 6%nat.
Proof.
  unfold get_latest_email.
  destruct (get_gmail_service g) as [[]|e].
  - intros H. split; [reflexivity|].
    destruct (messages_list g query) as [[|msg_id ids]|e] eqn:Hl;
      try discriminate.
    simpl in H.
    destruct (messages_get g msg_id) as [msg|e] eqn:Hg; [|discriminate].
    simpl in H.
    destruct (payload msg) as [pl|]; [|discriminate].
    destruct (headers pl); [|discriminate].
    simpl in H. unfold extract_otp in H.
    destruct (extract_text_from_message msg) as [txt|e] eqn:Htxt; [|discriminate].
    simpl in H. injection H as Hs.
    apply search_otp_position in Hs as [p Hp].
    apply match_otp_at_sound in Hp.
    exists msg_id, ids, msg, txt, p.
    split; [reflexivity|]. split; [exact Hg|]. split; [exact Htxt|].
    split; [exact Hp | apply Hp].
  - destruct e; try discriminate; simpl; discriminate.
Qed.

(** X3.  When the fetched message has no ['payload'] key, or its payload
    has no ['headers'] key, [get_latest_email] raises [KeyError], whatever
    the body holds. *)
Theorem get_latest_email_missing_headers
        (g : gmail) (query msg_id : string) (ids : list string) (msg : message) :
  get_gmail_service g = Ok tt ->
  messages_list g query = Ok (msg_id :: ids) ->
  messages_get g msg_id = Ok msg ->
  payload msg = None \/ (exists pl, payload msg = Some pl /\ headers pl = None) ->
  get_latest_email g query = Raise KeyError.
Proof.
  intros Hs Hl Hg Hmiss. unfold get_latest_email. rewrite Hs, Hl. simpl.
  rewrite Hg. simpl.
  destruct Hmiss as [-> | (pl & -> & ->)]; reflexivity.
Qed.

(** X4.  [get_gmail_service] returns a service only when it was built
    from the valid credentials of the token file, or from credentials
    that a refresh or the interactive login gave and that were written to
    the token file before the build; a refresh is only asked of expired
    stored credentials with a refresh token. *)
Theorem get_gmail_service_credentials (g : gmail) (service : unit) :
  get_gmail_service g = Ok service ->
  exists c,
    build g c = Ok service
    /\ (stored g c \/ (renewed g c /\ write_token g c = Ok tt)).
Proof.
  unfold get_gmail_service, interactive_login. intros H.
  destruct (token_file_exists g) eqn:Ht; simpl in H.
  - destruct (from_authorized_user_file g) as [c0|e] eqn:Hc; simpl in H;
      [|discriminate H].
    destruct (valid c0) eqn:Hv; simpl in H.
    { exists c0. unfold stored. auto. }
    destruct (expired c0 && token_truthy (refresh_token c0)) eqn:Hexp.
    + apply andb_prop in Hexp as [Hexp Htok].
      destruct (refresh g c0) as [c|e] eqn:Hr; simpl in H; [|discriminate H].
      destruct (write_token g c) as [[]|e] eqn:Hw; simpl in H; [|discriminate H].
      exists c. split; [exact H|]. right. unfold renewed. split; [|exact Hw].
      left. exists c0. auto 7.
    + destruct (from_client_secrets_file g) as [[]|e] eqn:Hs; simpl in H;
        [|discriminate H].
      destruct (run_local_server g) as [c|e] eqn:Hl; simpl in H; [|discriminate H].
      destruct (write_token g c) as [[]|e] eqn:Hw; simpl in H; [|discriminate H].
      exists c. split; [exact H|]. right. unfold renewed. split; [|exact Hw].
      right. split; [exact Hs | exact Hl].
  - destruct (from_client_secrets_file g) as [[]|e] eqn:Hs; simpl in H;
      [|discriminate H].
    destruct (run_local_server g) as [c|e] eqn:Hl; simpl in H; [|discriminate H].
    destruct (write_token g c) as [[]|e] eqn:Hw; simpl in H; [|discriminate H].
    exists c. split; [exact H|]. right. unfold renewed. split; [|exact Hw].
    right. split; [exact Hs | exact Hl].
Qed.

(** X5.  In a message whose parts carry no nested parts, the first
    [text/plain] part that has a body decides: parts before it that are of
    another type, or [text/plain] without data, are passed over, and the
    parts after it are not looked at.  Its decoded data is returned; when
    it has no ['body'] key at all, [KeyError] is raised. *)
Theorem first_plain_part_decides
        (msg : message) (pl t : part) (pre post : list part) :
  payload msg = Some pl ->
  parts pl = Some (pre ++ t :: post) ->
  forallb passed_over pre = true ->
  is_text_plain (mimeType t) = true ->
  (forall d, body t = Some (Some d) ->
             extract_text_from_message msg = urlsafe_b64decode_utf8 d)
  /\ (body t = None -> extract_text_from_message msg = Raise KeyError).
Proof.
  intros Hpl Hparts Hpre Hplain.
  assert (Hscan : extract_text_from_message msg
                  = scan_parts extract_text_from_payload (pre ++ t :: post)).
  { unfold extract_text_from_message. rewrite Hpl.
    rewrite extract_text_from_payload_eq, Hparts.
    destruct pre; reflexivity. }
  rewrite Hscan. clear Hscan Hparts Hpl.
  induction pre as [|p pre IH].
  - simpl app. rewrite scan_parts_cons. cbv zeta. rewrite Hplain.
    split; [intros d -> | intros ->]; reflexivity.
  - simpl in Hpre. apply andb_prop in Hpre as [Hp Hpre].
    specialize (IH Hpre).
    assert (Hstep : scan_parts extract_text_from_payload ((p :: pre) ++ t :: post)
                    = scan_parts extract_text_from_payload (pre ++ t :: post)).
    { simpl app. rewrite scan_parts_cons. cbv zeta.
      unfold passed_over in Hp.
      destruct (parts p); [discriminate|].
      destruct (is_text_plain (mimeType p)); [|reflexivity].
      simpl in Hp. destruct (body p) as [[d|]|]; try discriminate. reflexivity. }
    rewrite Hstep. exact IH.
Qed.

End MoreOtp.

Lemma extract_otp_leftmost_witness :
  exists p,
    six_digit_match (R := Reference.runtime)
      (text_of_string "First 111111 then 222222") p (text_of_string "111111").
Proof.
  destruct (@extract_otp_leftmost Reference.runtime two_codes_mail
              (text_of_string "First 111111 then 222222")
              (text_of_string "111111"))
    as (p & Hp & _).
  - vm_compute. reflexivity.
  - vm_compute. reflexivity.
  - exists p. exact Hp.
Defined.

Lemma get_latest_email_code_origin_witness :
  get_latest_email (R := Reference.runtime) (gmail_with otp_mail) "subject:code"
  = Ok (Some (text_of_string "482913"))
  /\ get_gmail_service (gmail_with otp_mail) = Ok tt.
Proof.
  assert (H : get_latest_email (R := Reference.runtime) (gmail_with otp_mail)
                "subject:code" = Ok (Some (text_of_string "482913")))
    by (vm_compute; reflexivity).
  split; [exact H|].
  exact (proj1 (@get_latest_email_code_origin Reference.runtime _ _ _ H)).
Defined.

Lemma get_latest_email_missing_headers_witness :
  get_latest_email (R := Reference.runtime) (gmail_with otp_mail_without_headers)
    "subject:code" = Raise KeyError
  /\ extract_otp (R := Reference.runtime) otp_mail_without_headers
     = Ok (Some (text_of_string "482913")).
Proof.
  split.
  - apply (@get_latest_email_missing_headers Reference.runtime
             (gmail_with otp_mail_without_headers) "subject:code" "m1" []
             otp_mail_without_headers); try reflexivity.
    right. eexists. split; reflexivity.
  - vm_compute. reflexivity.
Defined.

Lemma get_gmail_service_credentials_witness :
  exists c,
    build gmail_refreshed c = Ok tt
    /\ (stored gmail_refreshed c
        \/ (renewed gmail_refreshed c /\ write_token gmail_refreshed c = Ok tt)).
Proof. apply (@get_gmail_service_credentials gmail_refreshed tt). reflexivity. Defined.

Lemma first_plain_part_decides_witness :
  extract_text_from_message (R := Reference.runtime) flat_mail
  = Ok (text_of_string "Your code is 482913. Expires in 10 minutes.").
Proof.
  refine (eq_trans
            (proj1 (@first_plain_part_decides Reference.runtime flat_mail _
                      (Part (Some "text/plain"%string) (Some [])
                            (Some (Some plain_body)) None)
                      [Part (Some "application/pdf"%string) (Some [])
                            (Some None) None]
                      [Part (Some "text/html"%string) (Some [])
                            (Some (Some html_body)) None]
                      eq_refl eq_refl eq_refl eq_refl) _ eq_refl) _).
  vm_compute. reflexivity.
Defined.

(** ** pages/base_page.py: URLs and navigation *)

Import Navigation.

Lemma string_of_list_ascii_app (a b : list ascii) :
  string_of_list_ascii (a ++ b)
  = (string_of_list_ascii a ++ string_of_list_ascii b)%string.
Proof. induction a as [|c a IH]; simpl; [reflexivity | now rewrite IH]. Qed.

Lemma drop_slashes_spec (l : list ascii) :
  exists k,
    l = repeat "/"%char k ++ drop_slashes l
    /\ match drop_slashes l with
       | c :: _ => Ascii.eqb c "/" = false
       | [] => True
       end.
Proof.
  induction l as [|c l (k & Hk & Hhd)]; [exists 0%nat; simpl; auto|].
  simpl. destruct (Ascii.eqb c "/") eqn:Hc.
  - apply Ascii.eqb_eq in Hc. subst c. exists (S k). simpl.
    split; [now rewrite <- Hk | exact Hhd].
  - exists 0%nat. simpl. auto.
Qed.

Lemma rev_repeat (A : Type) (x : A) (k : nat) : rev (repeat x k) = repeat x k.
Proof.
  induction k as [|k IH]; [reflexivity|].
  simpl. rewrite IH. clear IH.
  induction k as [|k IH]; [reflexivity | simpl; now rewrite IH].
Qed.

Lemma rstrip_slash_spec (s : string) :
  exists k,
    s = (BasePage.rstrip_slash s ++ slashes k)%string
    /\ ends_with_slash (BasePage.rstrip_slash s) = false.
Proof.
  change (BasePage.rstrip_slash s)
    with (string_of_list_ascii (rev (drop_slashes (rev (list_ascii_of_string s))))).
  destruct (drop_slashes_spec (rev (list_ascii_of_string s))) as (k & Hk & Hhd).
  exists k. split.
  - unfold slashes. rewrite <- string_of_list_ascii_app.
    rewrite <- (rev_repeat "/"%char k), <- rev_app_distr, <- Hk, rev_involutive.
    now rewrite string_of_list_ascii_of_string.
  - unfold ends_with_slash.
    rewrite list_ascii_of_string_of_list_ascii, rev_involutive.
    destruct (drop_slashes (rev (list_ascii_of_string s))); auto.
Qed.

Lemma lstrip_slash_spec (s : string) :
  exists j,
    s = (slashes j ++ lstrip_slash s)%string
    /\ starts_with_slash (lstrip_slash s) = false.
Proof.
  induction s as [|c s (j & Hj & Hst)]; [exists 0%nat; auto|].
  simpl. destruct (Ascii.eqb c "/") eqn:Hc.
  - apply Ascii.eqb_eq in Hc. subst c. exists (S j).
    split; [|exact Hst]. unfold slashes in *. simpl. now rewrite <- Hj.
  - exists 0%nat. simpl. now rewrite Hc.
Qed.

Lemma prefix_app_left (a b s : string) :
  String.prefix (a ++ b) s = true -> String.prefix a s = true.
Proof.
  revert s. induction a as [|c a IH]; intros s; [now destruct s|].
  destruct s as [|c' s]; [discriminate|]. simpl.
  destruct (ascii_dec c c'); [apply IH | discriminate].
Qed.

Lemma no_http_no_scheme (path : string) :
  String.prefix "http" path = false ->
  String.prefix "http://" path = false /\ String.prefix "https://" path = false.
Proof.
  intros H. split.
  - destruct (String.prefix "http://" path) eqn:Hp; [|reflexivity].
    apply (prefix_app_left "http" "://") in Hp. congruence.
  - destruct (String.prefix "https://" path) eqn:Hp; [|reflexivity].
    apply (prefix_app_left "http" "s://") in Hp. congruence.
Qed.

Lemma rstrip_slash_fixed (b : string) :
  ends_with_slash b = false -> BasePage.rstrip_slash b = b.
Proof.
  intros H.
  change (BasePage.rstrip_slash b)
    with (string_of_list_ascii (rev (drop_slashes (rev (list_ascii_of_string b))))).
  unfold ends_with_slash in H.
  destruct (rev (list_ascii_of_string b)) as [|c l] eqn:Hr.
  - simpl. apply (f_equal (@rev ascii)) in Hr. rewrite rev_involutive in Hr.
    simpl in Hr. rewrite <- (string_of_list_ascii_of_string b), Hr. reflexivity.
  - simpl. rewrite H. rewrite <- Hr, rev_involutive.
    apply string_of_list_ascii_of_string.
Qed.

(** X6.  [_build_url] on a path without scheme, with a base URL set: the
    slashes at the end of the base and at the head of the path are
    replaced by a single one. *)
Theorem build_url_joins_with_one_slash
        (self : BasePage.t) (b path : string) :
  BasePage.base_url self = Some b ->
  nonempty b = true ->
  String.prefix "http://" path = false ->
  String.prefix "https://" path = false ->
  exists k j,
    b = (BasePage.rstrip_slash b ++ slashes k)%string
    /\ path = (slashes j ++ lstrip_slash path)%string
    /\ ends_with_slash (BasePage.rstrip_slash b) = false
    /\ starts_with_slash (lstrip_slash path) = false
    /\ _build_url self path
       = Ok (BasePage.rstrip_slash b ++ "/" ++ lstrip_slash path)%string.
Proof.
  intros Hb Hne H1 H2.
  destruct (rstrip_slash_spec b) as (k & Hk & He).
  destruct (lstrip_slash_spec path) as (j & Hj & Hs).
  exists k, j. repeat split; auto.
  unfold _build_url. now rewrite H1, H2, Hb, Hne.
Qed.

Lemma build_url_joins_with_one_slash_witness :
  _build_url (BasePage.Make (Some "https://dmfluxury.com//"%string) 60000)
    "//pages/configurators"
  = Ok "https://dmfluxury.com/pages/configurators"%string.
Proof.
  destruct (@build_url_joins_with_one_slash
              (BasePage.Make (Some "https://dmfluxury.com//"%string) 60000)
              "https://dmfluxury.com//" "//pages/configurators"
              eq_refl eq_refl eq_refl eq_refl)
    as (k & j & _ & _ & _ & _ & H).
  exact H.
Defined.

(** X7.  [goto]: a path that starts with "http" is navigated to as it is,
    also when it has no scheme and a base URL is set; another path is
    joined to the base URL; without a usable base URL, [ValueError] is
    raised and the browser is not called. *)
Theorem goto_navigates
        (E : env) (self : BasePage.t) (path : string) (w : world) :
  (String.prefix "http" path = true ->
   goto E self path w = perform E (Goto path) w)
  /\ (String.prefix "http" path = false ->
      forall b, BasePage.base_url self = Some b -> nonempty b = true ->
                goto E self path w
                = perform E (Goto (BasePage.rstrip_slash b ++ "/"
                                   ++ lstrip_slash path)%string) w)
  /\ (String.prefix "http" path = false ->
      BasePage.base_url self = None
      \/ BasePage.base_url self = Some EmptyString ->
      goto E self path w = (Raise ValueError, w)).
Proof.
  unfold goto, bindM. split; [|split].
  - intros ->. reflexivity.
  - intros Hp b Hb Hne. rewrite Hp.
    destruct (no_http_no_scheme _ Hp) as [H1 H2].
    unfold lift, _build_url. now rewrite H1, H2, Hb, Hne.
  - intros Hp Hb. rewrite Hp.
    destruct (no_http_no_scheme _ Hp) as [H1 H2].
    unfold lift, _build_url. rewrite H1, H2.
    destruct Hb as [-> | ->]; reflexivity.
Qed.

Lemma goto_navigates_witness :
  goto site_all_ok page_with_base "httpbin/get" empty_world
  = (Ok tt, World [(Goto "httpbin/get", None)] None)
  /\ goto site_all_ok page_with_base "/pages/x" empty_world
     = (Ok tt, World [(Goto "https://dmfluxury.com/pages/x", None)] None)
  /\ goto site_all_ok page_without_base "/pages/x" empty_world
     = (Raise ValueError, empty_world).
Proof.
  pose (H1 := @goto_navigates site_all_ok page_with_base
                "httpbin/get" empty_world).
  pose (H2 := @goto_navigates site_all_ok page_with_base
                "/pages/x" empty_world).
  pose (H3 := @goto_navigates site_all_ok page_without_base
                "/pages/x" empty_world).
  split; [|split].
  - exact (proj1 H1 eq_refl).
  - exact (proj1 (proj2 H2) eq_refl "https://dmfluxury.com"%string eq_refl eq_refl).
  - exact (proj2 (proj2 H3) eq_refl (or_introl eq_refl)).
Defined.

(** X8.  The base URL that [BasePage(...)] stores never ends with a slash,
    so [_build_url] appends paths to it unchanged; a base URL made of
    slashes only is stored as the empty string, and then a path without
    scheme raises [ValueError] as if no base URL had been given. *)
Theorem init_base_url_has_no_trailing_slash
        (u : string) (default_timeout : Z) :
  u <> EmptyString ->
  exists b k,
    BasePage.base_url (BasePage.init (Some u) default_timeout) = Some b
    /\ u = (b ++ slashes k)%string
    /\ ends_with_slash b = false
    /\ forall path,
        String.prefix "http://" path = false ->
        String.prefix "https://" path = false ->
        _build_url (BasePage.init (Some u) default_timeout) path
        = if nonempty b then Ok (b ++ "/" ++ lstrip_slash path)%string
          else Raise ValueError.
Proof.
  intros Hu.
  destruct (rstrip_slash_spec u) as (k & Hk & He).
  exists (BasePage.rstrip_slash u), k.
  assert (Hinit : BasePage.base_url (BasePage.init (Some u) default_timeout)
                  = Some (BasePage.rstrip_slash u)).
  { unfold BasePage.init. simpl.
    destruct (String.eqb u EmptyString) eqn:Heq; [|reflexivity].
    apply String.eqb_eq in Heq. contradiction. }
  repeat split; auto.
  intros path H1 H2. unfold _build_url. rewrite H1, H2, Hinit.
  destruct (nonempty (BasePage.rstrip_slash u)); [|reflexivity].
  now rewrite (rstrip_slash_fixed _ He).
Qed.

Lemma init_base_url_has_no_trailing_slash_witness :
  BasePage.base_url (BasePage.init (Some "///"%string) 60000) = Some EmptyString
  /\ _build_url (BasePage.init (Some "///"%string) 60000) "pages/x"
     = Raise ValueError.
Proof.
  destruct (@init_base_url_has_no_trailing_slash "///" 60000)
    as (b & k & Hb & _ & _ & Hurl); [discriminate|].
  assert (Hb' : b = EmptyString).
  { change (Some EmptyString = Some b) in Hb. now injection Hb. }
  subst b. split; [exact Hb|].
  exact (Hurl "pages/x"%string eq_refl eq_refl).
Defined.

(** X9.  [goto_dashboard] navigates to the stored base URL when it starts
    with "http" and to https://dmfluxury.com when none is stored; a stored
    base URL without "http" in front is taken for a relative path and
    joined to itself. *)
Theorem goto_dashboard_target
        (E : env) (u : option string) (default_timeout : Z) (w : world) :
  let self := BasePage.init u default_timeout in
  match BasePage.base_url self with
  | Some b =>
      if nonempty b then
        if String.prefix "http" b
        then goto_dashboard E self w = perform E (Goto b) w
        else goto_dashboard E self w
             = perform E (Goto (b ++ "/" ++ lstrip_slash b)%string) w
      else goto_dashboard E self w = perform E (Goto "https://dmfluxury.com") w
  | None => goto_dashboard E self w = perform E (Goto "https://dmfluxury.com") w
  end.
Proof.
  intros self.
  assert (Hdefault : goto E self "https://dmfluxury.com" w
                     = perform E (Goto "https://dmfluxury.com") w)
    by (apply goto_navigates; reflexivity).
  unfold goto_dashboard.
  destruct (BasePage.base_url self) as [b|] eqn:Hb; [|exact Hdefault].
  destruct (nonempty b) eqn:Hne; [|exact Hdefault].
  destruct (String.prefix "http" b) eqn:Hp.
  - now apply goto_navigates.
  - assert (He : ends_with_slash b = false).
    { unfold self, BasePage.init in Hb. simpl in Hb.
      destruct u as [u|]; [|discriminate].
      destruct (String.eqb u EmptyString); [discriminate|].
      injection Hb as <-. now destruct (rstrip_slash_spec u) as (k & _ & He). }
    rewrite <- (rstrip_slash_fixed _ He) at 2.
    now apply goto_navigates.
Qed.

Lemma goto_dashboard_target_witness :
  goto_dashboard site_all_ok page_with_host_path empty_world
  = (Ok tt, World [(Goto "/shop/shop", None)] None)
  /\ goto_dashboard site_all_ok page_without_base empty_world
     = (Ok tt, World [(Goto "https://dmfluxury.com", None)] None).
Proof.
  split.
  - exact (@goto_dashboard_target site_all_ok (Some "/shop"%string) 60000
             empty_world).
  - exact (@goto_dashboard_target site_all_ok None 60000 empty_world).
Defined.

(** ** pages/base_page.py: retries *)

Section Retry.
Context {R : Runtime}.
Variable A : Type.
Variable func : M A.
Variable delay : Q.

Lemma retry_loop_result (Hsleep : time_sleep delay = Ok tt) (n : nat) :
  forall last_exc w,
    match last_exc with
    | Some e' => exists w0 w1, func w0 = (Raise e', w1)
                               /\ is_Exception e' = true
                               /\ w = log (Sleep delay) None w1
    | None => True
    end ->
    match fst (retry_loop func delay n last_exc w) with
    | Ok a => exists w0, func w0 = (Ok a, snd (retry_loop func delay n last_exc w))
    | Raise e =>
        (last_exc = None /\ n = 0%nat /\ e = TypeError)
        \/ exists w0 w1,
            func w0 = (Raise e, w1)
            /\ snd (retry_loop func delay n last_exc w)
               = if is_Exception e then log (Sleep delay) None w1 else w1
    end.
Proof.
  induction n as [|n IH]; intros last_exc w Hlast.
  - destruct last_exc as [e'|]; simpl.
    + destruct Hlast as (w0 & w1 & Hf & He & ->).
      right. exists w0, w1. rewrite He. auto.
    + left. auto.
  - simpl. destruct (func w) as [[a|e] w1] eqn:Hf; simpl.
    + exists w. exact Hf.
    + destruct (is_Exception e) eqn:He; simpl.
      * unfold bindM, sleep. rewrite Hsleep.
        specialize (IH (Some e) (log (Sleep delay) (to_outcome (Ok tt)) w1)
                       (ex_intro _ w (ex_intro _ w1 (conj Hf (conj He eq_refl))))).
        destruct (fst (retry_loop func delay n (Some e) _)); [exact IH|].
        destruct IH as [(Hn & _)|IH]; [discriminate | right; exact IH].
      * right. exists w, w1. rewrite He. auto.
Qed.

End Retry.

(** X10.  [retry]: with [retries] below 1 the function is not called and
    [TypeError] is raised.  Otherwise, when [time.sleep] accepts the
    delay, the value it returns was returned by a call of [func], which
    was its last one, and the exception it raises was raised by a call of
    [func]; a pause follows every caught exception, the last one
    included. *)
Theorem retry_returns_a_call_of_func
        (R : Runtime) (A : Type) (func : M A) (retries : Z) (delay : Q)
        (w : world) :
  ((retries <= 0)%Z -> retry func retries delay w = (Raise TypeError, w))
  /\ ((0 < retries)%Z -> time_sleep delay = Ok tt ->
      match fst (retry func retries delay w) with
      | Ok a => exists w0, func w0 = (Ok a, snd (retry func retries delay w))
      | Raise e =>
          exists w0 w1,
            func w0 = (Raise e, w1)
            /\ snd (retry func retries delay w)
               = if is_Exception e then log (Sleep delay) None w1 else w1
      end).
Proof.
  unfold retry. split.
  - intros Hle. replace (Z.to_nat retries) with 0%nat by lia. reflexivity.
  - intros Hpos Hsleep.
    pose proof (@retry_loop_result R A func delay Hsleep (Z.to_nat retries)
                  None w I) as H.
    destruct (fst (retry_loop func delay (Z.to_nat retries) None w));
      [exact H|].
    destruct H as [(_ & Hn & _)|H]; [lia | exact H].
Qed.

Lemma safe_click_loop_is_retry_loop
      (R : Runtime) (E : env) (self : BasePage.t) (selector : string)
      (delay : Q) (n : nat) :
  forall last_exc w,
    BasePage.safe_click_loop E self selector delay n last_exc w
    = retry_loop (BasePage.Hitclick E self selector None false) delay n last_exc w.
Proof.
  induction n as [|n IH]; intros last_exc w; [reflexivity|].
  simpl. unfold bindM at 1. unfold BasePage.click_attempt.
  destruct (BasePage.Hitclick E self selector None false w) as [[u|e] w1];
    [now destruct u|].
  destruct (is_Exception e); [|reflexivity].
  unfold bindM. destruct (sleep delay w1) as [[u|e'] w2]; [apply IH | reflexivity].
Qed.

(** X11.  [safe_click] is [retry] applied to [Hitclick] on the selector
    with no timeout and no force: same result and same calls, whatever
    [timeout] it is given. *)
Theorem safe_click_is_retry_of_Hitclick
        (R : Runtime) (E : env) (self : BasePage.t) (selector : string)
        (retries : Z) (retry_delay : Q) (timeout : option Z) (w : world) :
  BasePage.safe_click E self selector retries retry_delay timeout w
  = retry (BasePage.Hitclick E self selector None false) retries retry_delay w.
Proof.
  unfold BasePage.safe_click, retry. apply safe_click_loop_is_retry_loop.
Qed.

Lemma retry_returns_a_call_of_func_witness :
  exists w0,
    BasePage.Hitclick third_click_works page_without_base "button" None false w0
    = (Ok tt,
       snd (retry (R := Reference.runtime)
              (BasePage.Hitclick third_click_works page_without_base
                 "button" None false) 3 (1 # 4) empty_world)).
Proof.
  pose proof (proj2 (@retry_returns_a_call_of_func Reference.runtime unit
                       (BasePage.Hitclick third_click_works page_without_base
                          "button" None false) 3 (1 # 4) empty_world)
                    ltac:(lia) eq_refl) as H.
  change (fst (retry (R := Reference.runtime)
                 (BasePage.Hitclick third_click_works page_without_base
                    "button" None false) 3 (1 # 4) empty_world))
    with (@Ok unit tt) in H.
  exact H.
Defined.

(** X12.  When [time.sleep] accepts the delay, [safe_click] pauses after
    every failed attempt, the last one included: if it raises an exception
    of class [Exception], it has made [retries] attempts (none when
    [retries] is negative) and as many pauses; if it returns, or stops on
    another exception, it has paused once less than it has tried. *)
Theorem safe_click_pauses_after_every_failure
        (R : Runtime) (E : env) (self : BasePage.t) (selector : string)
        (retries : Z) (retry_delay : Q) (timeout : option Z) (w : world) :
  time_sleep retry_delay = Ok tt ->
  exists new,
    trace (snd (BasePage.safe_click E self selector retries retry_delay timeout w))
    = trace w ++ new
    /\ match fst (BasePage.safe_click E self selector retries retry_delay timeout w) with
       | Ok _ => attempts new = S (sleeps new)
       | Raise e =>
           if is_Exception e
           then sleeps new = attempts new /\ attempts new = Z.to_nat retries
           else attempts new = S (sleeps new)
       end.
Proof.
  intros Hsleep. unfold BasePage.safe_click.
  destruct (@safe_click_loop_pauses R E self selector retry_delay Hsleep
              (Z.to_nat retries) None w I) as (new & Htr & Hres).
  exists new. split; [exact Htr|].
  destruct (fst (BasePage.safe_click_loop E self selector retry_delay
                   (Z.to_nat retries) None w)) as [u|e]; [exact Hres|].
  destruct (is_Exception e); [|exact Hres].
  destruct Hres as [H1 H2]. split; congruence.
Qed.

Lemma safe_click_pauses_after_every_failure_witness :
  exists new,
    trace (snd (BasePage.safe_click (R := Reference.runtime) never_visible
                  page_without_base "button" 3 (1 # 4) None empty_world))
    = new
    /\ sleeps new = 3%nat /\ attempts new = 3%nat.
Proof.
  destruct (@safe_click_pauses_after_every_failure Reference.runtime never_visible
              page_without_base "button" 3 (1 # 4) None empty_world eq_refl)
    as (new & Htr & Hres).
  exists new. split; [exact Htr|].
  change (fst (BasePage.safe_click (R := Reference.runtime) never_visible
                 page_without_base "button" 3 (1 # 4) None empty_world))
    with (@Raise unit PlaywrightTimeout) in Hres.
  simpl in Hres. destruct Hres as [H1 H2]. split; [now rewrite H1 | exact H2].
Defined.

(** ** pages/dashbaord_page.py: the end of the login *)

(** X13.  [NavBarLinks] never returns and never changes the auth file.
    When every browser call goes through, it makes the seven calls that
    submit the email and wait for the OTP input, and ends in the
    exception of the mail lookup, in the failure of [pytest.fail] when
    there is no code, or, when a code was read, in [AttributeError]: the
    code is not typed and the submit button is not clicked. *)
Theorem NavBarLinks_never_completes
        (R : Runtime) (E : env) (g : gmail) (self : BasePage.t)
        (email : text) (wait_for_dashboard : bool) (w : world) :
  (exists e,
      fst (DashboardPage.NavBarLinks E g self email wait_for_dashboard w) = Raise e)
  /\ auth_file (snd (DashboardPage.NavBarLinks E g self email wait_for_dashboard w))
     = auth_file w
  /\ ((forall tr a, outcome E tr a = None) ->
      trace (snd (DashboardPage.NavBarLinks E g self email wait_for_dashboard w))
      = trace w ++ login_calls self email
      /\ fst (DashboardPage.NavBarLinks E g self email wait_for_dashboard w)
         = match get_latest_email g "subject:code" with
           | Ok (Some c) =>
               if truthy c then Raise AttributeError
               else Raise (PytestFailed "Unable to Get the OTP from Email")
           | Ok None => Raise (PytestFailed "Unable to Get the OTP from Email")
           | Raise e => Raise e
           end).
Proof.
  rewrite NavBarLinks_steps.
  pose proof (submit_email_keeps_file E self email w) as Hfile.
  split; [|split].
  - destruct (submit_email E self email w) as [[u|e] w1]; [|simpl; eauto].
    destruct (perform E otp_wait w1) as [[u1|e] w2]; [|simpl; eauto].
    destruct (enter_otp_raises E g self w2) as [e He]. rewrite He.
    simpl. eauto.
  - destruct (submit_email E self email w) as [[u|e] w1]; [|exact Hfile].
    simpl in Hfile. unfold perform.
    destruct (of_outcome (outcome E (trace w1) otp_wait)) as [u1|e];
      [|exact Hfile].
    destruct (enter_otp_raises E g self (log otp_wait (outcome E (trace w1) otp_wait) w1))
      as [e He].
    rewrite He. exact Hfile.
  - intros Hall. rewrite (submit_email_all_ok E self email w Hall).
    unfold perform. rewrite Hall. simpl.
    unfold enter_otp, bindM, lift, raise, ret, log. simpl.
    rewrite <- app_assoc.
    destruct (get_latest_email g "subject:code") as [[c|]|e]; simpl; auto.
    destruct (truthy c); auto.
Qed.

Lemma NavBarLinks_never_completes_witness :
  fst (DashboardPage.NavBarLinks (R := Reference.runtime) site_all_ok
         (gmail_with otp_mail) page_without_base
         (text_of_string "user@example.com") true empty_world)
  = Raise AttributeError.
Proof.
  refine (eq_trans
            (proj2 (proj2 (proj2 (@NavBarLinks_never_completes Reference.runtime
                                    site_all_ok (gmail_with otp_mail)
                                    page_without_base
                                    (text_of_string "user@example.com") true
                                    empty_world))
                          (fun _ _ => eq_refl))) _).
  vm_compute. reflexivity.
Defined.

(** ** conftest.py: the page fixture and the auth file *)

(** X14.  [auth_page] never changes the auth file, and the wait for the
    dashboard header cannot make it fail: when it returns, it has created
    the context from the file, opened a page, navigated to the
    configurators page and waited once, with any outcome; when it raises,
    the exception comes from one of the three calls before the wait. *)
Theorem auth_page_ignores_the_dashboard_wait
        (E : env) (path burl : string) (w : world) :
  auth_file (snd (auth_page E path burl w)) = auth_file w
  /\ match fst (auth_page E path burl w) with
     | Ok page =>
         page = BasePage.init (Some burl) 60000
         /\ exists o,
             trace (snd (auth_page E path burl w))
             = trace w
               ++ [(NewContext (Some path), None); (NewPage, None);
                   (Goto (burl ++ "/pages/configurators"), None);
                   (WaitForSelector DASHBOARD_HEADER None 60000, o)]
     | Raise e =>
         exists pre a,
           trace (snd (auth_page E path burl w)) = trace w ++ pre ++ [(a, Some e)]
           /\ selector_waits (pre ++ [(a, Some e)]) = 0%nat
     end.
Proof.
  unfold auth_page, bindM, new_context_from, perform, ret, log.
  destruct (read_file w path) as [[cookies|]|]; simpl.
  - destruct (outcome E (trace w) (NewContext (Some path))) as [e|]; simpl.
    { split; [reflexivity|]. exists [], (NewContext (Some path)). auto. }
    match goal with
    | |- context [outcome E ?tr NewPage] => destruct (outcome E tr NewPage) as [e|]
    end; simpl.
    { split; [reflexivity|].
      exists [(NewContext (Some path), None)], NewPage.
      rewrite <- app_assoc. auto. }
    match goal with
    | |- context [outcome E ?tr (Goto ?u)] =>
        destruct (outcome E tr (Goto u)) as [e|]
    end; simpl.
    { split; [reflexivity|].
      exists [(NewContext (Some path), None); (NewPage, None)],
             (Goto (burl ++ "/pages/configurators")).
      rewrite <- !app_assoc. auto. }
    split; [reflexivity|]. split; [reflexivity|].
    eexists. rewrite <- !app_assoc. reflexivity.
  - split; [reflexivity|]. exists [], (NewContext (Some path)). auto.
  - split; [reflexivity|]. exists [], (NewContext (Some path)). auto.
Qed.

Lemma create_auth_state_ok_file
      (R : Runtime) (E : env) (cfg : pytestconfig) (w w' : world) (path : string) :
  create_auth_state E cfg w = (Ok path, w') ->
  path = AUTH_STATE_FILE /\ auth_file w' <> None.
Proof.
  intros Heq.
  destruct (exists_ w AUTH_STATE_FILE && negb (opt_recreate_auth cfg)) eqn:Hbranch.
  - rewrite (@create_auth_state_eq R E cfg w), Hbranch in Heq. injection Heq as <- <-.
    split; [reflexivity|].
    apply andb_prop in Hbranch as [Hex _].
    unfold exists_, read_file in Hex. simpl in Hex.
    destruct (auth_file w); [discriminate | discriminate Hex].
  - destruct (@bootstrap_shape R E cfg w Hbranch) as (pre & _ & Hshape).
    rewrite Heq in Hshape. simpl in Hshape.
    destruct Hshape as [(_ & _ & a & e & pre0 & _ & Hres)
                       |(_ & rest & _ & _ & Hf & Hpath & Hsome)];
      [discriminate|].
    split; [exact Hpath | now rewrite Hf].
Qed.

(** X15.  After [create_auth_state] has returned, a further request
    without [--recreate-auth] returns the same path and touches neither
    the browser nor the file, whatever the other options are. *)
Theorem bootstrap_then_reuse
        (R : Runtime) (E E' : env) (cfg cfg' : pytestconfig)
        (w w' : world) (path : string) :
  create_auth_state E cfg w = (Ok path, w') ->
  opt_recreate_auth cfg' = false ->
  create_auth_state E' cfg' w' = (Ok path, w').
Proof.
  intros Heq Hr.
  destruct (@create_auth_state_ok_file R E cfg w w' path Heq) as [-> Hf].
  rewrite create_auth_state_eq. now rewrite (reuse_branch cfg' w' Hf Hr).
Qed.

Lemma bootstrap_then_reuse_witness :
  launches (trace (snd (create_auth_state (R := Reference.runtime) site_all_ok
                          cfg_default empty_world))) = 1%nat
  /\ create_auth_state (R := Reference.runtime) site_unreachable cfg_default
       (snd (create_auth_state (R := Reference.runtime) site_all_ok cfg_default
               empty_world))
     = (Ok AUTH_STATE_FILE,
        snd (create_auth_state (R := Reference.runtime) site_all_ok cfg_default
               empty_world)).
Proof.
  split; [vm_compute; reflexivity|].
  apply (@bootstrap_then_reuse Reference.runtime site_all_ok site_unreachable
           cfg_default cfg_default empty_world).
  - vm_compute. reflexivity.
  - reflexivity.
Defined.

(** X16.  [create_auth_state] never removes an auth file: a file that was
    there before is there afterwards, with its old content or with what an
    export wrote; and with a file there before, the existence check after
    the export cannot fail: once the context has been closed, the path is
    returned. *)
Theorem create_auth_state_keeps_a_file
        (R : Runtime) (E : env) (cfg : pytestconfig) (w : world)
        (c : file_content) :
  auth_file w = Some c ->
  (exists c',
      auth_file (snd (create_auth_state E cfg w)) = Some c'
      /\ (c' = c \/ exists tr, exported E tr = Some c'))
  /\ (forall tr,
         trace (snd (create_auth_state E cfg w)) = tr ++ [(ContextClose, None)] ->
         fst (create_auth_state E cfg w) = Ok AUTH_STATE_FILE).
Proof.
  intros Hc.
  destruct (exists_ w AUTH_STATE_FILE && negb (opt_recreate_auth cfg)) eqn:Hbranch.
  - rewrite create_auth_state_eq, Hbranch. simpl. split; [eauto | reflexivity].
  - destruct (@bootstrap_shape R E cfg w Hbranch) as (pre & _ & Hshape).
    destruct Hshape as [(Htr & Hf & a & e & pre0 & Hlast & Hres)
                       |(_ & rest & Htr & _ & Hf & Hres)].
    + split; [exists c; rewrite Hf; auto|].
      intros tr Htr'. rewrite Htr, Hlast, app_assoc in Htr'.
      apply app_inj_tail in Htr' as [_ Hbad]. discriminate.
    + assert (Hfile : exists c',
                 file_after_export E (trace w ++ launch_event E cfg w :: pre)
                                   (auth_file w) = Some c'
                 /\ (c' = c \/ exists tr, exported E tr = Some c')).
      { unfold file_after_export. rewrite Hc.
        destruct (exported E (trace w ++ launch_event E cfg w :: pre)) as [c'|] eqn:He.
        - exists c'. split; [reflexivity|]. right. eauto.
        - exists c. auto. }
      destruct Hfile as (c' & Hc' & Hfrom).
      split; [exists c'; rewrite Hf; auto|].
      intros tr Htr'.
      destruct (fst (create_auth_state E cfg w)) as [path|e].
      * destruct Hres as [-> _]. reflexivity.
      * destruct Hres as [->|[->|(_ & Hnone & _)]]; [| |congruence].
        -- rewrite Htr, app_comm_cons, app_assoc in Htr'.
           apply app_inj_tail in Htr' as [_ Hbad]. discriminate.
        -- rewrite Htr, app_two_last, app_comm_cons, app_assoc in Htr'.
           apply app_inj_tail in Htr' as [_ Hbad]. discriminate.
Qed.

Lemma create_auth_state_keeps_a_file_witness :
  (exists c',
      auth_file (snd (create_auth_state (R := Reference.runtime) site_all_ok
                        cfg_recreate world_with_state)) = Some c'
      /\ (c' = Decodable ["session"%string]
          \/ exists tr, exported site_all_ok tr = Some c'))
  /\ (forall tr,
         trace (snd (create_auth_state (R := Reference.runtime) site_all_ok
                       cfg_recreate world_with_state))
         = tr ++ [(ContextClose, None)] ->
         fst (create_auth_state (R := Reference.runtime) site_all_ok
                cfg_recreate world_with_state) = Ok AUTH_STATE_FILE).
Proof.
  apply (@create_auth_state_keeps_a_file Reference.runtime site_all_ok
           cfg_recreate world_with_state (Decodable ["session"%string])).
  reflexivity.
Defined.
